(** * The GitHub-user / city-weather gateway of [app/main.py]

    A shallow embedding of the two request handlers [get_github_user] and
    [get_weather], of the Python built-ins and library calls they rely
    on, and the properties of their status-code and payload mapping.

    Conventions of the embedding:
    - a Python [str] is the [string] of its UTF-8 bytes; [str.lower] is
      taken on the ASCII letters, which decides the same as Python whether
      the lowered text contains the phrase "rate limit" (the only other
      character lowered to one of its letters yields an i followed by a
      combining mark);
    - a value decoded from JSON is a [pyval]; a dict is an association
      list with distinct keys;
    - float arithmetic is not modelled: floats live in a carrier [F] and
      the conversions the handlers call on them, the [repr] of floats and
      containers, the text of an exception and the pydantic generation are
      fields of a [Runtime]; so are the interpreter's limit on the digits
      of a numeral and what [int()] reads beyond the ASCII numerals; every
      theorem holds for every runtime;
    - a handler is a [prog]: a tree whose nodes are the outbound GETs and
      whose leaves are what the route answers. *)

From Stdlib Require Import ZArith List String Ascii Bool Lia.
From Stdlib Require Import Decimal DecimalString DecimalZ DecimalN DecimalPos.
Import ListNotations.

Local Open Scope string_scope.
Local Open Scope Z_scope.

(** ** Strings *)

Module Str.

(** [c.lower()] on one ASCII character. *)
Definition lower_char (c : ascii) : ascii :=
  let n := nat_of_ascii c in
  if ((65 <=? n) && (n <=? 90))%nat then ascii_of_nat (n + 32) else c.

(** [s.lower()]. *)
Fixpoint lower (s : string) : string :=
  match s with
  | EmptyString => EmptyString
  | String c t => String (lower_char c) (lower t)
  end.

(** [sub in s]: [sub] starts at some position of [s]. *)
Fixpoint contains (sub s : string) : bool :=
  String.prefix sub s
  || match s with
     | EmptyString => false
     | String _ t => contains sub t
     end.

(** The ASCII blanks [int()] skips around a numeral: tab to carriage
    return, and the space. *)
Definition is_space (c : ascii) : bool :=
  let n := nat_of_ascii c in
  ((9 <=? n) && (n <=? 13) || (n =? 32))%nat.

Fixpoint lstrip (s : string) : string :=
  match s with
  | EmptyString => EmptyString
  | String c t => if is_space c then lstrip t else s
  end.

Fixpoint rstrip (s : string) : string :=
  match s with
  | EmptyString => EmptyString
  | String c t =>
      match rstrip t with
      | EmptyString => if is_space c then EmptyString else String c EmptyString
      | t' => String c t'
      end
  end.

(** [s.strip()]. *)
Definition strip (s : string) : string := rstrip (lstrip s).

(** [sep.join(l)]. *)
Fixpoint join (sep : string) (l : list string) : string :=
  match l with
  | [] => EmptyString
  | [x] => x
  | x :: rest => x ++ sep ++ join sep rest
  end.

Definition underscore : ascii := "_"%char.

(** The underscores of a numeral stand singly between two digits;
    [prev] tells that the previous character was a digit. *)
Fixpoint grouped (prev : bool) (s : string) : bool :=
  match s with
  | EmptyString => prev
  | String c t =>
      if Ascii.eqb c underscore then prev && grouped false t
      else grouped true t
  end.

Fixpoint drop_underscores (s : string) : string :=
  match s with
  | EmptyString => EmptyString
  | String c t =>
      if Ascii.eqb c underscore then drop_underscores t
      else String c (drop_underscores t)
  end.

End Str.

(** [str(n)] for an [int]. *)
Definition str_of_int (z : Z) : string := NilZero.string_of_int (Z.to_int z).

(** The ASCII numerals of base ten: surrounding ASCII blanks, one
    optional sign, ASCII digits grouped by single underscores.  Every
    [int()] reads them so; [int()] itself, with the interpreter's limit
    and what it reads beyond them, is [int_of_str] below. *)
Definition ascii_int_of_digits (s : string) : option Z :=
  if Str.grouped false s then
    match NilEmpty.uint_of_string (Str.drop_underscores s) with
    | Some u => Some (Z.of_uint u)
    | None => None
    end
  else None.

Definition ascii_int_of_str (s : string) : option Z :=
  match Str.strip s with
  | String "-" t => option_map Z.opp (ascii_int_of_digits t)
  | String "+" t => ascii_int_of_digits t
  | t => ascii_int_of_digits t
  end.

(** The digits of a numeral as the interpreter counts them against its
    limit: blanks, sign and underscores apart, leading zeros included. *)
Definition numeral_digits (s : string) : nat :=
  match Str.strip s with
  | String "-" t => String.length (Str.drop_underscores t)
  | String "+" t => String.length (Str.drop_underscores t)
  | t => String.length (Str.drop_underscores t)
  end.

(** [limit] is [sys.get_int_max_str_digits()], [None] when there is no
    limit (set to 0, or an interpreter without one). *)
Definition within_limit (limit : option nat) (digits : nat) : bool :=
  match limit with
  | Some l => (digits <=? l)%nat
  | None => true
  end.

(** ** Python values and exceptions *)

#[local] Unset Elimination Schemes.

Inductive pyval (F : Type) : Type :=
| VNone
| VBool (b : bool)
| VInt (z : Z)
| VFloat (f : F)
| VStr (s : string)
| VList (l : list (pyval F))
| VDict (d : list (string * pyval F)).

#[local] Set Elimination Schemes.

Arguments VNone {F}.
Arguments VBool {F} b.
Arguments VInt {F} z.
Arguments VFloat {F} f.
Arguments VStr {F} s.
Arguments VList {F} l.
Arguments VDict {F} d.

(** The exceptions met on the handlers' paths (other than the
    [HTTPException] they raise themselves). *)
Inductive exn : Type :=
| AttributeError
| TypeError
| ValueError
| OverflowError
| KeyError
| IndexError
| ValidationError
| JSONDecodeError
| OtherError (what : string).

(** A computation that returns or raises. *)
Inductive res (A : Type) : Type :=
| Val (a : A)
| Raise (e : exn).

Arguments Val {A} a.
Arguments Raise {A} e.

Definition res_bind {A B} (m : res A) (k : A -> res B) : res B :=
  match m with
  | Val a => k a
  | Raise e => Raise e
  end.

Declare Scope res_scope.
Delimit Scope res_scope with res.
Notation "x <- m ;; k" := (res_bind m (fun x => k))
  (at level 100, m at next level, right associativity) : res_scope.

Definition or_raise {A} (e : exn) (o : option A) : res A :=
  match o with
  | Some a => Val a
  | None => Raise e
  end.

(** What the interpreter and the libraries supply and the handlers only
    pass along. *)
Class Runtime (F : Type) : Type := {
  (** [bool(x)] of a float: [x != 0.0]. *)
  float_nonzero : F -> bool;
  (** [float(n)]; [None] is [OverflowError]. *)
  float_of_int : Z -> option F;
  (** [float(s)]; [None] is [ValueError]. *)
  float_of_str : string -> option F;
  (** [int(x)] of a float: truncation, or the error on nan and inf. *)
  int_of_float : F -> res Z;
  (** [str(v)] of a float, a list or a dict. *)
  repr_obj : pyval F -> string;
  (** [str(e)] of a caught exception. *)
  exn_text : exn -> string;
  (** pydantic 1 turns a number given for a [str] field into [str(v)];
      pydantic 2 refuses it. *)
  str_takes_numbers : bool;
  (** The most digits [int()] converts: 4300 by default since the limit
      exists. *)
  max_str_digits : option nat;
  (** [int(s)] of a str that is no ASCII numeral (blanks or decimal
      digits beyond ASCII); [None] is [ValueError]. *)
  int_of_str_beyond : string -> option Z
}.

(** ** Built-ins on values *)

Section Builtins.

Context {F : Type} {RT : Runtime F}.

Local Open Scope res_scope.

(** [bool(v)]. *)
Definition truthy (v : pyval F) : bool :=
  match v with
  | VNone => false
  | VBool b => b
  | VInt z => negb (z =? 0)
  | VFloat f => float_nonzero f
  | VStr s => negb (String.eqb s EmptyString)
  | VList l => match l with [] => false | _ => true end
  | VDict d => match d with [] => false | _ => true end
  end.

(** [a or b]. *)
Definition py_or (a b : pyval F) : pyval F := if truthy a then a else b.

Fixpoint assoc (d : list (string * pyval F)) (key : string)
  : option (pyval F) :=
  match d with
  | [] => None
  | (k, v) :: rest => if String.eqb k key then Some v else assoc rest key
  end.

(** [v.get(key, default)]; only a dict has the method. *)
Definition py_get_default (v : pyval F) (key : string) (default : pyval F)
  : res (pyval F) :=
  match v with
  | VDict d => Val (match assoc d key with Some x => x | None => default end)
  | _ => Raise AttributeError
  end.

(** [v.get(key)]. *)
Definition py_get (v : pyval F) (key : string) : res (pyval F) :=
  py_get_default v key VNone.

(** [v.lower()]; only a str has the method. *)
Definition py_lower (v : pyval F) : res string :=
  match v with
  | VStr s => Val (Str.lower s)
  | _ => Raise AttributeError
  end.

(** [v[key]] for a str key. *)
Definition py_getitem (v : pyval F) (key : string) : res (pyval F) :=
  match v with
  | VDict d => or_raise KeyError (assoc d key)
  | _ => Raise TypeError
  end.

(** [v[0]].  A JSON dict has str keys only, so [0] is never one; the
    first character of a str is taken as its first code unit. *)
Definition py_getitem0 (v : pyval F) : res (pyval F) :=
  match v with
  | VList l => or_raise IndexError (hd_error l)
  | VStr s =>
      match s with
      | EmptyString => Raise IndexError
      | String c _ => Val (VStr (String c EmptyString))
      end
  | VDict _ => Raise KeyError
  | _ => Raise TypeError
  end.

(** [int(s)] of a str: an ASCII numeral is read as its number unless it
    has more digits than the limit; what else the interpreter reads is
    the runtime's.  [None] is [ValueError]. *)
Definition int_of_str (s : string) : option Z :=
  match ascii_int_of_str s with
  | Some n =>
      if within_limit max_str_digits (numeral_digits s) then Some n else None
  | None => int_of_str_beyond s
  end.

(** [int(v)]. *)
Definition py_int (v : pyval F) : res Z :=
  match v with
  | VInt z => Val z
  | VBool b => Val (if b then 1 else 0)
  | VFloat f => int_of_float f
  | VStr s => or_raise ValueError (int_of_str s)
  | _ => Raise TypeError
  end.

(** [float(v)]. *)
Definition py_float (v : pyval F) : res F :=
  match v with
  | VFloat f => Val f
  | VInt z => or_raise OverflowError (float_of_int z)
  | VBool b => or_raise OverflowError (float_of_int (if b then 1 else 0))
  | VStr s => or_raise ValueError (float_of_str s)
  | _ => Raise TypeError
  end.

(** [str(v)].  An int decoded by [json()] is within the interpreter's
    limit of digits, so [str] of it does not raise. *)
Definition py_str (v : pyval F) : string :=
  match v with
  | VStr s => s
  | VNone => "None"
  | VBool b => if b then "True" else "False"
  | VInt z => str_of_int z
  | _ => repr_obj v
  end.

(** pydantic's check of a value given for a [str] field. *)
Definition validate_str (v : pyval F) : res string :=
  match v with
  | VStr s => Val s
  | VBool _ | VInt _ | VFloat _ =>
      if str_takes_numbers then Val (py_str v) else Raise ValidationError
  | _ => Raise ValidationError
  end.

(** ... and for an [Optional[str]] field. *)
Definition validate_opt_str (v : pyval F) : res (option string) :=
  match v with
  | VNone => Val None
  | _ => s <- validate_str v ;; Val (Some s)
  end.

End Builtins.

(** ** The shared outbound client *)

(** [headers.get(key)] of httpx: header names compare without case, the
    values of a repeated header are joined, [None] when there is none. *)
Definition headers_get (hs : list (string * string)) (key : string)
  : option string :=
  match filter (fun h => String.eqb (Str.lower (fst h)) (Str.lower key)) hs with
  | [] => None
  | found => Some (Str.join ", " (map snd found))
  end.

(** [os.getenv(key)]. *)
Fixpoint getenv (environ : list (string * string)) (key : string)
  : option string :=
  match environ with
  | [] => None
  | (k, v) :: rest => if String.eqb k key then Some v else getenv rest key
  end.

(** What a route answers: the value it returns, the [HTTPException] it
    raises, or an exception it lets through (the framework then answers
    500 "Internal Server Error"). *)
Inductive outcome (A : Type) : Type :=
| Returned (a : A)
| HTTPException (status_code : Z) (detail : string)
| Unhandled (e : exn).

Arguments Returned {A} a.
Arguments HTTPException {A} status_code detail.
Arguments Unhandled {A} e.

(** The status the caller sees. *)
Definition visible_status {A} (o : outcome A) : Z :=
  match o with
  | Returned _ => 200
  | HTTPException code _ => code
  | Unhandled _ => 500
  end.

Record GitHubUserResponse : Type := {
  login : string;
  name : option string;
  public_repos : Z;
  followers : Z;
  following : Z
}.

Section Client.

Context {F : Type}.

(** An upstream answer as the handlers read it: [r.status_code],
    [r.headers], and what [r.json()] returns or raises. *)
Record response : Type := {
  status_code : Z;
  headers : list (string * string);
  json : res (pyval F)
}.

(** [r.is_error]: a 4xx or 5xx status. *)
Definition is_error (r : response) : bool :=
  (400 <=? status_code r) && (status_code r <=? 599).

Record request : Type := {
  url : string;
  params : list (string * pyval F)
}.

(** [await client.get(...)]: an answer, an [httpx.RequestError] (network
    layer: no connection, timeout), or another exception. *)
Inductive get_outcome : Type :=
| Response (r : response)
| RequestError (msg : string)
| Raised (e : exn).

(** A handler: it answers, or issues a GET and goes on with its outcome. *)
Inductive prog (A : Type) : Type :=
| Ret (a : A)
| Get (rq : request) (k : get_outcome -> prog A).

Arguments Ret {A} a.
Arguments Get {A} rq k.

(** Running a handler against a network: its answer and the calls made. *)
Fixpoint run {A} (net : request -> get_outcome) (p : prog A)
  : A * list request :=
  match p with
  | Ret a => (a, [])
  | Get rq k => let (a, calls) := run net (k (net rq)) in (a, rq :: calls)
  end.

Definition answer {A} (net : request -> get_outcome) (p : prog A) : A :=
  fst (run net p).

Definition calls {A} (net : request -> get_outcome) (p : prog A)
  : list request :=
  snd (run net p).

Record WeatherResponse : Type := {
  city : string;
  temperature : F;
  weather_description : string
}.

Context {RT : Runtime F}.

Local Open Scope res_scope.

(** *** GET /get_github_user *)

Definition github_request (username : string) : request :=
  {| url := "https://api.github.com/users/" ++ username; params := [] |}.

(** Lines 84-88: [msg], left empty when anything in the [try] raises. *)
Definition rate_limit_msg (r : response) : string :=
  match (body <- json r ;;
         m <- py_get body "message" ;;
         py_lower (py_or m (VStr EmptyString))) with
  | Val msg => msg
  | Raise _ => EmptyString
  end.

(** Lines 99-105: the arguments in order, then the model's validation
    (an [int] given for an [int] field passes as it is). *)
Definition build_user (data : pyval F) : res GitHubUserResponse :=
  login_v <- py_get data "login" ;;
  name_v <- py_get data "name" ;;
  repos_v <- py_get_default data "public_repos" (VInt 0) ;;
  repos <- py_int repos_v ;;
  followers_v <- py_get_default data "followers" (VInt 0) ;;
  fol <- py_int followers_v ;;
  following_v <- py_get_default data "following" (VInt 0) ;;
  fing <- py_int following_v ;;
  l <- validate_str login_v ;;
  n <- validate_opt_str name_v ;;
  Val {| login := l; name := n; public_repos := repos;
         followers := fol; following := fing |}.

(** Lines 79-107, once the profile call has answered. *)
Definition github_answer (r : response) : outcome GitHubUserResponse :=
  if status_code r =? 404 then
    HTTPException 404 "GitHub user not found"
  else if status_code r =? 403 then
    let remaining := headers_get (headers r) "X-RateLimit-Remaining" in
    let msg := rate_limit_msg r in
    if match remaining with Some v => String.eqb v "0" | None => false end
       || Str.contains "rate limit" msg
    then HTTPException 429
           "GitHub API rate limit exceeded. Try again later or add a token."
    else HTTPException 403 "GitHub API returned 403 Forbidden."
  else if is_error r then
    HTTPException (status_code r)
      ("GitHub API error (" ++ str_of_int (status_code r) ++ ").")
  else
    match json r with
    | Raise e => Unhandled e
    | Val data =>
        match build_user data with
        | Val user => Returned user
        | Raise e =>
            HTTPException 500
              ("Unexpected response shape from GitHub: " ++ exn_text e)
        end
    end.

(** Lines 64-107.  The framework calls the handler with the [username]
    of the query once it has checked that it is not empty. *)
Definition get_github_user (username : string)
  : prog (outcome GitHubUserResponse) :=
  Get (github_request username) (fun got =>
    match got with
    | RequestError e =>
        Ret (HTTPException 502 ("Network error talking to GitHub: " ++ e))
    | Raised e => Ret (Unhandled e)
    | Response r => Ret (github_answer r)
    end).

(** *** GET /get_weather/{city} *)

Definition geocode_request (city api_key : string) : request :=
  {| url := "http://api.openweathermap.org/geo/1.0/direct";
     params := [("q", VStr city); ("appid", VStr api_key);
                ("limit", VInt 1)] |}.

Definition weather_request (lat lon : pyval F) (api_key : string) : request :=
  {| url := "https://api.openweathermap.org/data/2.5/weather";
     params := [("lat", lat); ("lon", lon); ("appid", VStr api_key);
                ("units", VStr "metric")] |}.

Definition is_none (v : pyval F) : bool :=
  match v with VNone => true | _ => false end.

(** Lines 143-145. *)
Definition read_place (first : pyval F) (city : string)
  : res (pyval F * pyval F * pyval F) :=
  lat <- py_get first "lat" ;;
  lon <- py_get first "lon" ;;
  nm <- py_get first "name" ;;
  Val (lat, lon, py_or nm (VStr city)).

(** Lines 163-164. *)
Definition read_weather (payload : pyval F) : res (F * string) :=
  main <- py_getitem payload "main" ;;
  temp <- py_getitem main "temp" ;;
  temp_c <- py_float temp ;;
  weather <- py_getitem payload "weather" ;;
  w0 <- py_getitem0 weather ;;
  description <- py_getitem w0 "description" ;;
  Val (temp_c, py_str description).

(** Lines 158-168, once the current-conditions call has answered. *)
Definition weather_answer (resolved_name : pyval F) (w_resp : response)
  : outcome WeatherResponse :=
  if is_error w_resp then
    HTTPException (status_code w_resp) "OpenWeather weather API error."
  else
    match json w_resp with
    | Raise e => Unhandled e
    | Val payload =>
        match read_weather payload with
        | Raise e =>
            HTTPException 500
              ("Unexpected response shape from OpenWeather: " ++ exn_text e)
        | Val (temp_c, description) =>
            match validate_str resolved_name with
            | Raise e => Unhandled e
            | Val c =>
                Returned {| city := c; temperature := temp_c;
                            weather_description := description |}
            end
        end
    end.

Definition weather_step (lat lon resolved_name : pyval F) (api_key : string)
  : prog (outcome WeatherResponse) :=
  Get (weather_request lat lon api_key) (fun got =>
    match got with
    | RequestError e =>
        Ret (HTTPException 502
               ("Network error talking to OpenWeather Weather API: " ++ e))
    | Raised e => Ret (Unhandled e)
    | Response w_resp => Ret (weather_answer resolved_name w_resp)
    end).

(** Lines 135-148, once the geocoding call has answered. *)
Definition after_geocode (city api_key : string) (geo_resp : response)
  : prog (outcome WeatherResponse) :=
  if is_error geo_resp then
    Ret (HTTPException (status_code geo_resp)
           "OpenWeather geocoding API error.")
  else
    match json geo_resp with
    | Raise e => Ret (Unhandled e)
    | Val (VList (first :: _)) =>
        match read_place first city with
        | Raise e => Ret (Unhandled e)
        | Val (lat, lon, resolved_name) =>
            if is_none lat || is_none lon then
              Ret (HTTPException 502 "Geocoding returned no coordinates.")
            else weather_step lat lon resolved_name api_key
        end
    | Val _ => Ret (HTTPException 404 "Invalid city name or city not found.")
    end.

Definition geocode_step (city api_key : string)
  : prog (outcome WeatherResponse) :=
  Get (geocode_request city api_key) (fun got =>
    match got with
    | RequestError e =>
        Ret (HTTPException 502
               ("Network error talking to OpenWeather Geocoding API: " ++ e))
    | Raised e => Ret (Unhandled e)
    | Response geo_resp => after_geocode city api_key geo_resp
    end).

(** Lines 111-168; [environ] is the process environment [os.getenv]
    reads. *)
Definition get_weather (environ : list (string * string)) (city : string)
  : prog (outcome WeatherResponse) :=
  match getenv environ "OPENWEATHER_API_KEY" with
  | None | Some EmptyString =>
      Ret (HTTPException 500
             "OpenWeather API key not configured. Set OPENWEATHER_API_KEY env var or .env file.")
  | Some api_key => geocode_step city api_key
  end.

End Client.

Arguments Ret {F A} a.
Arguments Get {F A} rq k.
Arguments response F : clear implicits.
Arguments request F : clear implicits.
Arguments get_outcome F : clear implicits.
Arguments prog F A : clear implicits.
Arguments WeatherResponse F : clear implicits.

(** ** Vocabulary of the properties *)

Section Vocabulary.

Context {F : Type} {RT : Runtime F}.

(** The variable holding the weather provider's key. *)
Definition key_var : string := "OPENWEATHER_API_KEY".

(** A 403 signals a rate limit: the header reads "0", or the body is a
    JSON object whose [message] is a str mentioning "rate limit" in any
    letter case. *)
Definition rate_limit_signalled (r : response F) : Prop :=
  headers_get (headers r) "X-RateLimit-Remaining" = Some "0"
  \/ exists d s, json r = Val (VDict d)
                 /\ assoc d "message" = Some (VStr s)
                 /\ Str.contains "rate limit" (Str.lower s) = true.

(** A counter of a profile: absent, an int, or the decimal numeral of
    one, of no more digits than the interpreter converts. *)
Inductive counter_reads (d : list (string * pyval F)) (key : string)
  : Z -> Prop :=
| counter_absent : assoc d key = None -> counter_reads d key 0
| counter_int n : assoc d key = Some (VInt n) -> counter_reads d key n
| counter_numeral n :
    within_limit max_str_digits (numeral_digits (str_of_int n)) = true ->
    assoc d key = Some (VStr (str_of_int n)) -> counter_reads d key n.

(** The optional display name of a profile: absent, null, or a str. *)
Inductive name_reads (d : list (string * pyval F)) : option string -> Prop :=
| name_absent : assoc d "name" = None -> name_reads d None
| name_null : assoc d "name" = Some VNone -> name_reads d None
| name_str s : assoc d "name" = Some (VStr s) -> name_reads d (Some s).

(** A field of an object is missing: no such key, or null there. *)
Definition missing (d : list (string * pyval F)) (key : string) : Prop :=
  assoc d key = None \/ assoc d key = Some VNone.

(** The value [d.get(key)] yields. *)
Definition field (d : list (string * pyval F)) (key : string) : pyval F :=
  match assoc d key with Some v => v | None => VNone end.

(** The network answers the geocoding call of [city] with a non-error
    status and a list whose first element is the object [place]. *)
Definition geocoded (environ : list (string * string))
    (net : request F -> get_outcome F) (city api_key : string)
    (place : list (string * pyval F)) : Prop :=
  getenv environ key_var = Some api_key
  /\ api_key <> EmptyString
  /\ exists geo_resp rest,
       net (geocode_request city api_key) = Response geo_resp
       /\ is_error geo_resp = false
       /\ json geo_resp = Val (VList (VDict place :: rest)).

(** ... and the place carries both coordinates. *)
Definition located (place : list (string * pyval F)) : Prop :=
  is_none (field place "lat") = false /\ is_none (field place "lon") = false.

(** The network answers the current-conditions call for [place] with a
    non-error status and the JSON value [payload]. *)
Definition conditions (net : request F -> get_outcome F) (api_key : string)
    (place : list (string * pyval F)) (payload : pyval F) : Prop :=
  exists w_resp,
    net (weather_request (field place "lat") (field place "lon") api_key)
      = Response w_resp
    /\ is_error w_resp = false
    /\ json w_resp = Val payload.

(** The current-conditions payload has the shape lines 163-164 read:
    an object whose [main] is an object with [temp] = [tv], and whose
    [weather] is a list starting with an object with [description] = [dv]. *)
Definition conditions_shape (payload tv dv : pyval F) : Prop :=
  exists p m w0 ws,
    payload = VDict p
    /\ assoc p "main" = Some (VDict m)
    /\ assoc m "temp" = Some tv
    /\ assoc p "weather" = Some (VList (VDict w0 :: ws))
    /\ assoc w0 "description" = Some dv.

(** The profile body has the shape lines 99-105 accept: an object whose
    [login] passes as a str, whose [name] passes as an optional str, and
    whose counters, where present, convert with [int()]. *)
Definition profile_shape (data : pyval F) : Prop :=
  exists d,
    data = VDict d
    /\ (exists l, validate_str (field d "login") = Val l)
    /\ (exists n, validate_opt_str (field d "name") = Val n)
    /\ forall key, In key ["public_repos"; "followers"; "following"] ->
         exists n,
           py_int (match assoc d key with Some v => v | None => VInt 0 end)
           = Val n.

(** ... and [temp] converts with [float()]. *)
Definition conditions_readable (payload : pyval F) : Prop :=
  exists tv dv t, conditions_shape payload tv dv /\ py_float tv = Val t.

(** [main.temp] is a JSON number whose float is [t]. *)
Definition number_as_float (tv : pyval F) (t : F) : Prop :=
  tv = VFloat t \/ exists z, tv = VInt z /\ float_of_int z = Some t.

(** The city name the weather route reports for a place: its [name]
    when that is a non-empty str, the caller's [city] when it is absent,
    null or empty. *)
Inductive resolved (city : string) (place : list (string * pyval F))
  : string -> Prop :=
| resolved_given s :
    assoc place "name" = Some (VStr s) -> s <> EmptyString ->
    resolved city place s
| resolved_absent : assoc place "name" = None -> resolved city place city
| resolved_null : assoc place "name" = Some VNone -> resolved city place city
| resolved_empty :
    assoc place "name" = Some (VStr EmptyString) -> resolved city place city.

(** The detail of a raised [HTTPException] carries [phrase], letter case
    aside. *)
Definition says {A} (o : outcome A) (phrase : string) : Prop :=
  match o with
  | HTTPException _ detail => Str.contains phrase (Str.lower detail) = true
  | _ => False
  end.

(** Every GET of a handler that fails at the network layer ends the
    request with a 502 whose detail ends in the error's text. *)
Inductive network_guarded {A} : prog F (outcome A) -> Prop :=
| guarded_ret a : network_guarded (Ret a)
| guarded_get rq k :
    (forall msg, exists pre,
        k (RequestError msg) = Ret (HTTPException 502 (pre ++ msg))) ->
    (forall got, network_guarded (k got)) ->
    network_guarded (Get rq k).

End Vocabulary.

(** ** A runtime to evaluate the handlers on concrete payloads

    Floats are read as exact rationals (12.5 is 25/2), so only finite
    values exist and conversions never overflow.  [float()] of a str reads
    the integral numerals, [int()] reads the ASCII numerals of at most
    4300 digits and nothing beyond them.  The texts of [repr] and of
    exceptions are stand-ins: no statement below depends on them. *)

Module Sample.

Definition float : Type := Z * positive.

Definition stand_in_repr (v : pyval float) : string :=
  match v with
  | VList _ => "[...]"
  | VDict _ => "{...}"
  | _ => "<float>"
  end.

Definition stand_in_text (e : exn) : string :=
  match e with
  | AttributeError => "AttributeError"
  | TypeError => "TypeError"
  | ValueError => "ValueError"
  | OverflowError => "OverflowError"
  | KeyError => "KeyError"
  | IndexError => "IndexError"
  | ValidationError => "ValidationError"
  | JSONDecodeError => "JSONDecodeError"
  | OtherError what => what
  end.

Definition runtime : Runtime float := {|
  float_nonzero := fun q => negb (fst q =? 0);
  float_of_int := fun z => Some (z, 1%positive);
  float_of_str :=
    fun s => option_map (fun z => (z, 1%positive)) (ascii_int_of_str s);
  int_of_float := fun q => Val (Z.quot (fst q) (Z.pos (snd q)));
  repr_obj := stand_in_repr;
  exn_text := stand_in_text;
  str_takes_numbers := false;
  max_str_digits := Some 4300%nat;
  int_of_str_beyond := fun _ => None
|}.

Definition environ : list (string * string) := [(key_var, "k3y")].

(** A network that answers each URL with a fixed response. *)
Definition serve (github geo weather : get_outcome float)
  (rq : request float) : get_outcome float :=
  if String.eqb (url rq) "http://api.openweathermap.org/geo/1.0/direct" then geo
  else if String.eqb (url rq) "https://api.openweathermap.org/data/2.5/weather"
  then weather
  else github.

Definition ok (body : pyval float) : get_outcome float :=
  Response {| status_code := 200; headers := []; json := Val body |}.

Definition london : list (string * pyval float) :=
  [("name", VStr "London"); ("lat", VFloat (515074, 10000%positive));
   ("lon", VFloat (-1278, 10000%positive)); ("country", VStr "GB")].

Definition unnamed_place : list (string * pyval float) :=
  [("name", VStr EmptyString); ("lat", VInt 51); ("lon", VInt 0)].

Definition drizzle : pyval float :=
  VDict [("weather", VList [VDict [("id", VInt 300);
                                   ("description", VStr "light drizzle")]]);
         ("main", VDict [("temp", VFloat (25, 2%positive));
                         ("humidity", VInt 81)])].

(** A current-conditions payload whose description is a number. *)
Definition coded : pyval float :=
  VDict [("weather", VList [VDict [("description", VInt 5)]]);
         ("main", VDict [("temp", VFloat (25, 2%positive))])].

(** Answers of the user-profile API. *)
Definition gone : response float :=
  {| status_code := 404; headers := [];
     json := Val (VDict [("message", VStr "Not Found")]) |}.

Definition throttled : response float :=
  {| status_code := 403; headers := [("x-ratelimit-remaining", "0")];
     json := Raise JSONDecodeError |}.

Definition profile : list (string * pyval float) :=
  [("login", VStr "octocat"); ("name", VStr "The Octocat");
   ("public_repos", VStr "12"); ("followers", VInt 9000)].

Definition profile_resp : response float :=
  {| status_code := 200; headers := []; json := Val (VDict profile) |}.

(** A profile whose [followers] is null. *)
Definition torn_profile : pyval float :=
  VDict [("login", VStr "octocat"); ("followers", VNone)].

Definition torn_resp : response float :=
  {| status_code := 200; headers := []; json := Val torn_profile |}.

(** A place without [lon]. *)
Definition half_place : list (string * pyval float) :=
  [("name", VStr "Nowhere"); ("lat", VInt 51)].

(** Current conditions without [main.temp]. *)
Definition templess : pyval float :=
  VDict [("weather", VList [VDict [("description", VStr "fog")]]);
         ("main", VDict [("humidity", VInt 81)])].

Definition refused : get_outcome float := RequestError "connection refused".

Definition user_net (github : get_outcome float)
  : request float -> get_outcome float :=
  serve github refused refused.

Definition weather_net (geo weather : get_outcome float)
  : request float -> get_outcome float :=
  serve refused geo weather.

End Sample.

(** More answers and payloads, for the remaining paths of the routes. *)

Module Cases.

Import Sample.

Definition status_only (code : Z) : response float :=
  {| status_code := code; headers := []; json := Val (VDict []) |}.

(** A non-error answer whose body does not decode. *)
Definition garbled : response float :=
  {| status_code := 200; headers := []; json := Raise JSONDecodeError |}.

(** A profile without [login]. *)
Definition anonymous : list (string * pyval float) :=
  [("name", VStr "Nobody"); ("public_repos", VInt 2)].

(** A profile whose [followers] is null. *)
Definition unfollowed : list (string * pyval float) :=
  [("login", VStr "octocat"); ("followers", VNone)].

Definition body (d : list (string * pyval float)) : response float :=
  {| status_code := 200; headers := []; json := Val (VDict d) |}.

Fixpoint zeros (k : nat) : string :=
  match k with
  | O => EmptyString
  | S k' => String "0" (zeros k')
  end.

(** A one followed by 4300 zeros: a numeral of 4301 digits. *)
Definition overlong : string := String "1" (zeros 4300).

(** A profile whose [followers] is that numeral. *)
Definition followed : list (string * pyval float) :=
  [("login", VStr "octocat"); ("followers", VStr overlong)].

(** A place whose [name] is a list. *)
Definition many_names : list (string * pyval float) :=
  [("name", VList [VStr "London"; VStr "Londres"]);
   ("lat", VInt 51); ("lon", VInt 0)].

End Cases.

(** * Properties *)

(** ** Numerals *)

Section Numerals.

Import NilEmpty.

Lemma lstrip_numeral u : Str.lstrip (string_of_uint u) = string_of_uint u.
Proof. destruct u; reflexivity. Qed.

Lemma rstrip_numeral u : Str.rstrip (string_of_uint u) = string_of_uint u.
Proof.
  induction u; simpl; try reflexivity; rewrite IHu;
    destruct (string_of_uint u); reflexivity.
Qed.

Lemma strip_numeral u : Str.strip (string_of_uint u) = string_of_uint u.
Proof. unfold Str.strip. now rewrite lstrip_numeral, rstrip_numeral. Qed.

Lemma grouped_numeral u prev :
  Str.grouped prev (string_of_uint u)
  = match u with Nil => prev | _ => true end.
Proof.
  revert prev; induction u; intros prev; simpl; try reflexivity;
    rewrite IHu; destruct u; reflexivity.
Qed.

Lemma drop_underscores_numeral u :
  Str.drop_underscores (string_of_uint u) = string_of_uint u.
Proof. induction u; simpl; try reflexivity; now rewrite IHu. Qed.

Lemma ascii_digits_numeral u :
  u <> Nil -> ascii_int_of_digits (string_of_uint u) = Some (Z.of_uint u).
Proof.
  intros Hu. unfold ascii_int_of_digits.
  rewrite grouped_numeral, drop_underscores_numeral, usu.
  destruct u; congruence.
Qed.

(** A non-empty string of decimal digits is read as the number it writes. *)
Lemma ascii_numeral_digits_read s u :
  uint_of_string s = Some u -> u <> Nil ->
  ascii_int_of_str s = Some (Z.of_uint u).
Proof.
  intros Hs Hu. apply sus in Hs. subst s.
  unfold ascii_int_of_str. rewrite strip_numeral.
  rewrite <- (ascii_digits_numeral u Hu).
  destruct u; try congruence; reflexivity.
Qed.

Lemma of_uint_to_uint p : Z.of_uint (Pos.to_uint p) = Z.pos p.
Proof. unfold Z.of_uint. now rewrite DecimalPos.Unsigned.of_to. Qed.

(** The decimal numeral of [n] is read as [n]. *)
Lemma ascii_int_of_str_of_int z :
  ascii_int_of_str (str_of_int z) = Some z.
Proof.
  destruct z as [|p|p]; [reflexivity| |].
  - unfold str_of_int; simpl.
    pose proof (DecimalPos.Unsigned.to_uint_nonnil p) as Hp.
    rewrite <- (of_uint_to_uint p).
    replace (NilZero.string_of_uint (Pos.to_uint p))
      with (string_of_uint (Pos.to_uint p))
      by (unfold NilZero.string_of_uint; destruct (Pos.to_uint p); congruence).
    apply ascii_numeral_digits_read; [apply usu | assumption].
  - unfold str_of_int; simpl.
    pose proof (DecimalPos.Unsigned.to_uint_nonnil p) as Hp.
    replace (NilZero.string_of_uint (Pos.to_uint p))
      with (string_of_uint (Pos.to_uint p))
      by (unfold NilZero.string_of_uint; destruct (Pos.to_uint p); congruence).
    unfold ascii_int_of_str, Str.strip. simpl Str.lstrip.
    change (Str.rstrip (String "-" (string_of_uint (Pos.to_uint p))))
      with (match Str.rstrip (string_of_uint (Pos.to_uint p)) with
            | EmptyString => String "-" EmptyString
            | t' => String "-" t'
            end).
    rewrite rstrip_numeral.
    destruct (string_of_uint (Pos.to_uint p)) eqn:E.
    + destruct (Pos.to_uint p); simpl in E; congruence.
    + rewrite <- E, (ascii_digits_numeral _ Hp), of_uint_to_uint.
      reflexivity.
Qed.

End Numerals.

(** ** The handlers *)

Section Handlers.

Context {F : Type} {RT : Runtime F}.

Implicit Types (net : request F -> get_outcome F) (r : response F).
Implicit Types (d place : list (string * pyval F)) (v data payload : pyval F).

Lemma missing_is_none d key : missing d key -> is_none (field d key) = true.
Proof. unfold field; intros [-> | ->]; reflexivity. Qed.

Lemma error_free_status r :
  is_error r = false -> status_code r <> 404 /\ status_code r <> 403.
Proof.
  unfold is_error; intros H; split; intros E; rewrite E in H; discriminate.
Qed.

(** *** The user lookup *)

Lemma run_github net username r :
  net (github_request username) = Response r ->
  run net (get_github_user username)
  = (github_answer r, [github_request username]).
Proof. intros H; simpl; now rewrite H. Qed.

Lemma github_answer_ok r :
  is_error r = false ->
  github_answer r
  = match json r with
    | Raise e => Unhandled e
    | Val data =>
        match build_user data with
        | Val user => Returned user
        | Raise e =>
            HTTPException 500
              ("Unexpected response shape from GitHub: " ++ exn_text e)
        end
    end.
Proof.
  intros H. destruct (error_free_status r H) as [H404 H403].
  unfold github_answer. rewrite H.
  apply Z.eqb_neq in H404, H403. now rewrite H404, H403.
Qed.

(** Lines 84-88 leave in [msg] the lower-cased [message] of a JSON
    object when that is a str, and the empty str in every other case. *)
Lemma rate_limit_msg_cases r :
  rate_limit_msg r
  = match json r with
    | Val (VDict d) =>
        match assoc d "message" with
        | Some (VStr s) => Str.lower s
        | _ => EmptyString
        end
    | _ => EmptyString
    end.
Proof.
  unfold rate_limit_msg.
  destruct (json r) as [body|e]; [|reflexivity].
  destruct body as [| | | | |l|d]; try reflexivity.
  cbn [res_bind py_get py_get_default].
  destruct (assoc d "message") as [m|]; [|reflexivity].
  destruct m as [|b|z|f|s|l|l]; unfold py_or; cbn [truthy];
    try reflexivity;
    try (match goal with |- context [if ?c then _ else _] => destruct c end;
         reflexivity).
  destruct s; reflexivity.
Qed.

(** The message test of line 89 holds exactly for a JSON object whose
    [message] is a str with the phrase. *)
Lemma rate_limit_msg_spec r :
  Str.contains "rate limit" (rate_limit_msg r) = true
  <-> exists d s, json r = Val (VDict d)
                  /\ assoc d "message" = Some (VStr s)
                  /\ Str.contains "rate limit" (Str.lower s) = true.
Proof.
  rewrite rate_limit_msg_cases. split.
  - destruct (json r) as [body|e]; [|discriminate].
    destruct body as [| | | | |l|d]; try discriminate.
    destruct (assoc d "message") as [m|] eqn:Hm; [|discriminate].
    destruct m as [|b|z|f|s|l|l]; try discriminate.
    intros H. exists d, s. auto.
  - intros (d & s & -> & -> & Hs). exact Hs.
Qed.

Lemma rate_limit_test r :
  (match headers_get (headers r) "X-RateLimit-Remaining" with
   | Some v => String.eqb v "0"
   | None => false
   end || Str.contains "rate limit" (rate_limit_msg r)) = true
  <-> rate_limit_signalled r.
Proof.
  unfold rate_limit_signalled.
  rewrite orb_true_iff, rate_limit_msg_spec.
  destruct (headers_get (headers r) "X-RateLimit-Remaining") as [v|].
  - rewrite String.eqb_eq. split; (intros [H|H]; [left|right; exact H]);
      congruence.
  - split; (intros [H|H]; [discriminate|right; exact H]).
Qed.

(** C3.  Whatever the username, an upstream 404 on the profile call is
    answered with an HTTPException 404 "GitHub user not found": the caller
    sees status 404 and no other. *)
Theorem upstream_404_is_not_found net username r :
  net (github_request username) = Response r ->
  status_code r = 404 ->
  answer net (get_github_user username)
  = HTTPException 404 "GitHub user not found"
  /\ visible_status (answer net (get_github_user username)) = 404
  /\ says (answer net (get_github_user username)) "user not found".
Proof.
  intros Hnet H404. unfold answer. rewrite (run_github _ _ _ Hnet).
  unfold github_answer; rewrite H404; simpl. repeat split.
Qed.

(** C1.  On an upstream 403 the user lookup answers 429 exactly when the
    rate limit is signalled: by a remaining-count header equal to "0", or
    by a body message that mentions "rate limit" once lower-cased; either
    sign alone is enough.  Every other 403 is answered 403 with a generic
    detail. *)
Theorem forbidden_is_rate_limit_or_403 net username r :
  net (github_request username) = Response r ->
  status_code r = 403 ->
  (rate_limit_signalled r ->
   answer net (get_github_user username)
   = HTTPException 429
       "GitHub API rate limit exceeded. Try again later or add a token.")
  /\ (~ rate_limit_signalled r ->
      answer net (get_github_user username)
      = HTTPException 403 "GitHub API returned 403 Forbidden.")
  /\ (visible_status (answer net (get_github_user username)) = 429
      <-> rate_limit_signalled r).
Proof.
  intros Hnet H403. unfold answer. rewrite (run_github _ _ _ Hnet).
  unfold github_answer; rewrite H403; simpl fst.
  change (403 =? 404) with false; change (403 =? 403) with true; cbv iota.
  pose proof (rate_limit_test r) as Htest.
  destruct (_ || _).
  - repeat split; auto.
    + intros Hno; exfalso; apply Hno, Htest; reflexivity.
    + intros _; apply Htest; reflexivity.
  - repeat split; auto.
    + intros Hyes; apply Htest in Hyes; discriminate.
    + simpl; discriminate.
    + intros Hyes; apply Htest in Hyes; discriminate.
Qed.

Ltac bind_inv H :=
  repeat match type of H with
         | res_bind ?m _ = Val _ =>
             let E := fresh "E" in
             destruct m eqn:E; cbn [res_bind] in H; [|discriminate H]
         end.

(** [int(str(n)) == n] for a numeral within the limit. *)
Lemma int_of_str_numeral n :
  within_limit max_str_digits (numeral_digits (str_of_int n)) = true ->
  int_of_str (str_of_int n) = Some n.
Proof.
  intros Hfits. unfold int_of_str.
  now rewrite ascii_int_of_str_of_int, Hfits.
Qed.

Lemma counter_converts d key n :
  counter_reads d key n ->
  py_int (match assoc d key with Some x => x | None => VInt 0 end) = Val n.
Proof.
  intros [H|m H|m Hfits H]; rewrite H; cbn [py_int]; try reflexivity.
  now rewrite (int_of_str_numeral _ Hfits).
Qed.

Lemma name_validates d nm :
  name_reads d nm -> validate_opt_str (field d "name") = Val nm.
Proof. unfold field; intros [H|H|s H]; rewrite H; reflexivity. Qed.

(** C4 (as the code has it).  A non-error answer carrying a well-formed
    profile (an object with a str [login], a [name] that is absent, null
    or a str, and counters that are absent, ints or decimal numerals of no
    more digits than the interpreter converts) yields the five-field
    summary: [login] and [name] as given, each counter as an integer, a
    numeral such as "12" read as its number and an absent counter as 0;
    the handler raises nothing. *)
Theorem well_formed_profile_is_summarised
    net username r d l nm repos fol fing :
  net (github_request username) = Response r ->
  is_error r = false ->
  json r = Val (VDict d) ->
  assoc d "login" = Some (VStr l) ->
  name_reads d nm ->
  counter_reads d "public_repos" repos ->
  counter_reads d "followers" fol ->
  counter_reads d "following" fing ->
  answer net (get_github_user username)
  = Returned {| login := l; name := nm; public_repos := repos;
                followers := fol; following := fing |}.
Proof.
  intros Hnet Hok Hjson Hlogin Hname Hrepos Hfol Hfing.
  unfold answer. rewrite (run_github _ _ _ Hnet); cbn [fst].
  rewrite (github_answer_ok _ Hok), Hjson.
  unfold build_user. cbn [py_get py_get_default res_bind].
  rewrite (counter_converts _ _ _ Hrepos), (counter_converts _ _ _ Hfol),
    (counter_converts _ _ _ Hfing).
  cbn [res_bind].
  pose proof (name_validates _ _ Hname) as Hn. unfold field in Hn.
  rewrite Hlogin, Hn. reflexivity.
Qed.

(** Lines 99-105 succeed exactly on the bodies of the accepted shape. *)
Lemma build_user_shape data :
  (exists user, build_user data = Val user) <-> profile_shape data.
Proof.
  split.
  - intros [user H]. destruct data as [| | | | | |d]; try discriminate H.
    unfold build_user in H. cbn [py_get py_get_default res_bind] in H.
    bind_inv H. exists d. split; [reflexivity|].
    unfold field. split; [eauto|]. split; [eauto|].
    intros key [<-|[<-|[<-|[]]]]; eauto.
  - intros (d & -> & [l Hl] & [n Hn] & Hc).
    destruct (Hc "public_repos") as [a Ha]; [simpl; auto|].
    destruct (Hc "followers") as [b Hb]; [simpl; auto|].
    destruct (Hc "following") as [c Hcc]; [simpl; auto 6|].
    unfold build_user. cbn [py_get py_get_default res_bind].
    unfold field in Hl, Hn.
    rewrite Ha, Hb, Hcc; cbn [res_bind]. rewrite Hl, Hn; cbn [res_bind].
    eauto.
Qed.

(** Lines 163-164 succeed exactly on the payloads of the read shape, with
    the float of [main.temp] and the [str()] of the description. *)
Lemma read_weather_shape payload t s :
  read_weather payload = Val (t, s)
  <-> exists tv dv, conditions_shape payload tv dv
                    /\ py_float tv = Val t /\ s = py_str dv.
Proof.
  split.
  - intros H. unfold read_weather in H.
    destruct payload as [| | | | | |p]; try discriminate H.
    cbn [py_getitem] in H.
    destruct (assoc p "main") as [mv|] eqn:Hmain; [|discriminate H].
    cbn [or_raise res_bind] in H.
    destruct mv as [| | | | | |m]; try discriminate H.
    cbn [py_getitem] in H.
    destruct (assoc m "temp") as [tv|] eqn:Htemp; [|discriminate H].
    cbn [or_raise res_bind] in H.
    destruct (py_float tv) as [t'|] eqn:Hfloat; [|discriminate H].
    cbn [res_bind] in H.
    destruct (assoc p "weather") as [wv|] eqn:Hweather; [|discriminate H].
    cbn [or_raise res_bind] in H.
    destruct wv as [| | | |[|c cs]|[|w0 ws]|]; try discriminate H.
    cbn [py_getitem0 hd_error or_raise res_bind] in H.
    destruct w0 as [| | | | | |w0]; try discriminate H.
    cbn [py_getitem] in H.
    destruct (assoc w0 "description") as [dv|] eqn:Hdesc; [|discriminate H].
    cbn [or_raise res_bind] in H. injection H as <- <-.
    exists tv, dv. split; [|auto]. exists p, m, w0, ws. auto.
  - intros (tv & dv & (p & m & w0 & ws & -> & Hmain & Htemp & Hw & Hd)
             & Hf & ->).
    unfold read_weather. cbn [py_getitem]. rewrite Hmain.
    cbn [or_raise res_bind py_getitem]. rewrite Htemp.
    cbn [or_raise res_bind]. rewrite Hf, Hw.
    cbn [or_raise res_bind py_getitem0 hd_error py_getitem]. rewrite Hd.
    reflexivity.
Qed.

(** *** The weather lookup *)

Lemma get_weather_keyed environ city api_key :
  getenv environ key_var = Some api_key ->
  api_key <> EmptyString ->
  get_weather environ city = geocode_step city api_key.
Proof.
  unfold get_weather, key_var. intros -> Hkey.
  destruct api_key; [congruence | reflexivity].
Qed.

Lemma run_geocode_step net city api_key geo_resp :
  net (geocode_request city api_key) = Response geo_resp ->
  run net (geocode_step city api_key)
  = (fst (run net (after_geocode city api_key geo_resp)),
     geocode_request city api_key
     :: snd (run net (after_geocode city api_key geo_resp))).
Proof.
  intros H. cbn [geocode_step run]. rewrite H.
  now destruct (run net (after_geocode city api_key geo_resp)).
Qed.

Lemma after_geocode_place city api_key geo_resp place rest :
  is_error geo_resp = false ->
  json geo_resp = Val (VList (VDict place :: rest)) ->
  after_geocode city api_key geo_resp
  = if is_none (field place "lat") || is_none (field place "lon")
    then Ret (HTTPException 502 "Geocoding returned no coordinates.")
    else weather_step (field place "lat") (field place "lon")
           (py_or (field place "name") (VStr city)) api_key.
Proof. unfold after_geocode. intros -> ->. reflexivity. Qed.

Lemma run_weather_step net lat lon nm api_key w_resp :
  net (weather_request lat lon api_key) = Response w_resp ->
  run net (weather_step lat lon nm api_key)
  = (weather_answer nm w_resp, [weather_request lat lon api_key]).
Proof. intros H. cbn [weather_step run]. now rewrite H. Qed.

(** The whole run when both calls are answered without an error status
    and the place carries its coordinates. *)
Lemma run_conditions environ net city api_key place payload :
  geocoded environ net city api_key place ->
  located place ->
  conditions net api_key place payload ->
  run net (get_weather environ city)
  = (match read_weather payload with
     | Raise e =>
         HTTPException 500
           ("Unexpected response shape from OpenWeather: " ++ exn_text e)
     | Val (temp_c, description) =>
         match validate_str (py_or (field place "name") (VStr city)) with
         | Raise e => Unhandled e
         | Val c =>
             Returned {| city := c; temperature := temp_c;
                         weather_description := description |}
         end
     end,
     [geocode_request city api_key;
      weather_request (field place "lat") (field place "lon") api_key]).
Proof.
  intros (Henv & Hkey & geo_resp & rest & Hgeo & Hok & Hjson) [Hlat Hlon]
         (w_resp & Hw & Hwok & Hwjson).
  rewrite (get_weather_keyed _ _ _ Henv Hkey), (run_geocode_step _ _ _ _ Hgeo),
    (after_geocode_place _ _ _ _ _ Hok Hjson), Hlat, Hlon.
  cbn [orb]. rewrite (run_weather_step _ _ _ _ _ _ Hw). cbn [fst snd].
  unfold weather_answer. now rewrite Hwok, Hwjson.
Qed.

(** C2 (as the code has it).  When a non-error answer decodes as JSON but
    lacks the shape the handler reads, the route answers 500 "Unexpected
    response shape from ...": in the user lookup for every body outside
    [profile_shape], in the weather lookup for every current-conditions
    payload outside [conditions_readable] (no [main.temp], a [temp] that
    [float()] refuses, no [weather[0].description]).  A description of any
    JSON type is not a failure: it is reported through [str()]. *)
Theorem unreadable_shape_is_500 :
  (forall net username r data,
      net (github_request username) = Response r ->
      is_error r = false ->
      json r = Val data ->
      ~ profile_shape data ->
      exists e,
        answer net (get_github_user username)
        = HTTPException 500
            ("Unexpected response shape from GitHub: " ++ exn_text e))
  /\ (forall environ net city api_key place payload,
         geocoded environ net city api_key place ->
         located place ->
         conditions net api_key place payload ->
         ~ conditions_readable payload ->
         exists e,
           answer net (get_weather environ city)
           = HTTPException 500
               ("Unexpected response shape from OpenWeather: " ++ exn_text e))
  /\ (forall environ net city api_key place payload tv dv t c,
         geocoded environ net city api_key place ->
         located place ->
         conditions net api_key place payload ->
         conditions_shape payload tv dv ->
         py_float tv = Val t ->
         validate_str (py_or (field place "name") (VStr city)) = Val c ->
         answer net (get_weather environ city)
         = Returned {| city := c; temperature := t;
                       weather_description := py_str dv |}).
Proof.
  split; [|split].
  - intros net username r data Hnet Hok Hjson Hshape.
    unfold answer. rewrite (run_github _ _ _ Hnet); cbn [fst].
    rewrite (github_answer_ok _ Hok), Hjson.
    destruct (build_user data) as [user|e] eqn:E; [|eauto].
    exfalso. apply Hshape, build_user_shape. eauto.
  - intros environ net city api_key place payload Hgeo Hloc Hcond Hshape.
    unfold answer. rewrite (run_conditions _ _ _ _ _ _ Hgeo Hloc Hcond).
    cbn [fst].
    destruct (read_weather payload) as [[t s]|e] eqn:E; [|eauto].
    exfalso. apply Hshape. apply read_weather_shape in E.
    destruct E as (tv & dv & Hs & Hf & _). exists tv, dv, t. auto.
  - intros environ net city api_key place payload tv dv t c
           Hgeo Hloc Hcond Hshape Hfloat Hcity.
    unfold answer. rewrite (run_conditions _ _ _ _ _ _ Hgeo Hloc Hcond).
    cbn [fst].
    assert (read_weather payload = Val (t, py_str dv)) as ->
        by (apply read_weather_shape; eauto).
    now rewrite Hcity.
Qed.

(** C5.  Without the provider key in the environment the weather route
    answers 500 with the instruction to set it, whatever the city, and
    makes no outbound call. *)
Theorem missing_key_is_500_without_calls environ net city :
  getenv environ key_var = None ->
  run net (get_weather environ city)
  = (HTTPException 500
       "OpenWeather API key not configured. Set OPENWEATHER_API_KEY env var or .env file.",
     []).
Proof. unfold get_weather, key_var. intros ->. reflexivity. Qed.

(** C6.  Whatever the city and its letter case, a geocoding answer with
    a non-error status whose JSON body is not a list, or is the empty list,
    is answered 404 "Invalid city name or city not found."; the only call
    made is the geocoding one. *)
Theorem no_place_is_404 environ net city api_key geo_resp v :
  getenv environ key_var = Some api_key ->
  api_key <> EmptyString ->
  net (geocode_request city api_key) = Response geo_resp ->
  is_error geo_resp = false ->
  json geo_resp = Val v ->
  (forall l, v <> VList l) \/ v = VList [] ->
  run net (get_weather environ city)
  = (HTTPException 404 "Invalid city name or city not found.",
     [geocode_request city api_key])
  /\ says (answer net (get_weather environ city))
          "invalid city name or city not found".
Proof.
  intros Henv Hkey Hgeo Hok Hjson Hv.
  assert (run net (get_weather environ city)
          = (HTTPException 404 "Invalid city name or city not found.",
             [geocode_request city api_key])) as Hrun.
  { rewrite (get_weather_keyed _ _ _ Henv Hkey),
      (run_geocode_step _ _ _ _ Hgeo).
    unfold after_geocode. rewrite Hok, Hjson.
    destruct Hv as [Hv| ->]; [|reflexivity].
    destruct v as [| | | | |l|]; try reflexivity.
    now destruct (Hv l). }
  split; [exact Hrun|]. unfold answer. rewrite Hrun. reflexivity.
Qed.

(** C7.  When the first element of the geocoding list is an object that
    lacks [lat] or lacks [lon] (no such key, or null), the weather route
    answers 502 "Geocoding returned no coordinates." and the
    current-conditions call is never made. *)
Theorem no_coordinates_is_502 environ net city api_key place :
  geocoded environ net city api_key place ->
  missing place "lat" \/ missing place "lon" ->
  run net (get_weather environ city)
  = (HTTPException 502 "Geocoding returned no coordinates.",
     [geocode_request city api_key])
  /\ says (answer net (get_weather environ city))
          "geocoding returned no coordinates".
Proof.
  intros (Henv & Hkey & geo_resp & rest & Hgeo & Hok & Hjson) Hmiss.
  assert (run net (get_weather environ city)
          = (HTTPException 502 "Geocoding returned no coordinates.",
             [geocode_request city api_key])) as Hrun.
  { rewrite (get_weather_keyed _ _ _ Henv Hkey),
      (run_geocode_step _ _ _ _ Hgeo),
      (after_geocode_place _ _ _ _ _ Hok Hjson).
    destruct Hmiss as [H|H]; apply missing_is_none in H; rewrite H;
      [|rewrite orb_true_r]; reflexivity. }
  split; [exact Hrun|]. unfold answer. rewrite Hrun. reflexivity.
Qed.

Lemma number_converts tv t : number_as_float tv t -> py_float tv = Val t.
Proof. intros [-> | (z & -> & H)]; cbn [py_float]; [|rewrite H]; reflexivity. Qed.

Lemma resolved_validates city place nm :
  resolved city place nm ->
  validate_str (py_or (field place "name") (VStr city)) = Val nm.
Proof.
  unfold field, py_or. intros [s H Hs|H|H|H]; rewrite H; cbn [truthy];
    try reflexivity.
  apply String.eqb_neq in Hs. now rewrite Hs.
Qed.

Lemma falsy_name_validates city v :
  truthy v = false -> validate_str (py_or v (VStr city)) = Val city.
Proof. unfold py_or. now intros ->. Qed.

(** C8.  When both weather calls are answered without an error status
    and with well-shaped bodies (a place with its coordinates; conditions
    with a numeric [main.temp] and a str description in the first element
    of [weather]), the route returns the summary whose [city] is the name
    resolved by the geocoding step (the caller's input when the provider
    gives none), whose [temperature] is [main.temp] as a float, read in
    metric units, and whose [weather_description] is that description. *)
Theorem weather_flow_is_summarised
    environ net city api_key place payload tv t description nm :
  geocoded environ net city api_key place ->
  located place ->
  conditions net api_key place payload ->
  conditions_shape payload tv (VStr description) ->
  number_as_float tv t ->
  resolved city place nm ->
  run net (get_weather environ city)
  = (Returned {| city := nm; temperature := t;
                 weather_description := description |},
     [geocode_request city api_key;
      weather_request (field place "lat") (field place "lon") api_key])
  /\ In ("units", VStr "metric")
        (params (weather_request (field place "lat") (field place "lon")
                   api_key)).
Proof.
  intros Hgeo Hloc Hcond Hshape Htemp Hname. split; [|simpl; auto].
  rewrite (run_conditions _ _ _ _ _ _ Hgeo Hloc Hcond).
  assert (read_weather payload = Val (t, description)) as ->.
  { apply read_weather_shape. exists tv, (VStr description).
    auto using number_converts. }
  now rewrite (resolved_validates _ _ _ Hname).
Qed.

(** C10.  The fallback to the caller's city covers every falsy [name] of
    the first geocoding element, the empty string and null among them:
    the summary then reports the caller's input as [city]. *)
Theorem falsy_name_falls_back_to_input
    environ net city api_key place payload tv dv t :
  geocoded environ net city api_key place ->
  located place ->
  conditions net api_key place payload ->
  conditions_shape payload tv dv ->
  py_float tv = Val t ->
  assoc place "name" = Some (VStr EmptyString)
  \/ assoc place "name" = Some VNone
  \/ truthy (field place "name") = false ->
  answer net (get_weather environ city)
  = Returned {| city := city; temperature := t;
                weather_description := py_str dv |}.
Proof.
  intros Hgeo Hloc Hcond Hshape Htemp Hname.
  assert (truthy (field place "name") = false) as Hfalsy.
  { unfold field. destruct Hname as [H|[H|H]]; [now rewrite H..|exact H]. }
  unfold answer. rewrite (run_conditions _ _ _ _ _ _ Hgeo Hloc Hcond).
  cbn [fst].
  assert (read_weather payload = Val (t, py_str dv)) as ->
      by (apply read_weather_shape; eauto).
  now rewrite (falsy_name_validates _ _ Hfalsy).
Qed.

(** *** Network failures *)

Lemma github_guarded username : network_guarded (get_github_user username).
Proof.
  apply guarded_get; [intros msg; eexists; reflexivity|].
  intros [r|msg|e]; apply guarded_ret.
Qed.

Lemma weather_step_guarded lat lon nm api_key :
  network_guarded (weather_step lat lon nm api_key).
Proof.
  apply guarded_get; [intros msg; eexists; reflexivity|].
  intros [r|msg|e]; apply guarded_ret.
Qed.

Lemma after_geocode_guarded city api_key geo_resp :
  network_guarded (after_geocode city api_key geo_resp).
Proof.
  unfold after_geocode.
  destruct (is_error geo_resp); [apply guarded_ret|].
  destruct (json geo_resp) as [v|e]; [|apply guarded_ret].
  destruct v as [| | | | |[|first rest]|]; try apply guarded_ret.
  destruct (read_place first city) as [[[lat lon] nm]|e]; [|apply guarded_ret].
  destruct (is_none lat || is_none lon);
    [apply guarded_ret | apply weather_step_guarded].
Qed.

Lemma weather_guarded environ city : network_guarded (get_weather environ city).
Proof.
  unfold get_weather.
  destruct (getenv environ "OPENWEATHER_API_KEY") as [[|c k]|];
    try apply guarded_ret.
  apply guarded_get; [intros msg; eexists; reflexivity|].
  intros [r|msg|e]; try apply guarded_ret. apply after_geocode_guarded.
Qed.

(** In a guarded handler, a call that fails at the network layer ends
    the run with a 502 built on the error's text. *)
Lemma guarded_run {A} (p : prog F (outcome A)) net rq msg :
  network_guarded p ->
  In rq (calls net p) ->
  net rq = RequestError msg ->
  exists pre, answer net p = HTTPException 502 (pre ++ msg).
Proof.
  unfold calls, answer.
  induction 1 as [a|rq0 k Hfail _ IH]; intros Hin Hnet; [destruct Hin|].
  cbn [run] in *.
  destruct (run net (k (net rq0))) as [a cs] eqn:E. cbn [fst snd] in *.
  destruct (net rq0) as [r0|msg0|e0] eqn:E0.
  - destruct Hin as [->|Hin]; [congruence|].
    specialize (IH (Response r0)). rewrite E in IH. now apply IH.
  - destruct (Hfail msg0) as [pre Hpre]. rewrite Hpre in E.
    injection E as <- <-. destruct Hin as [->|[]].
    assert (msg0 = msg) as -> by congruence. eauto.
  - destruct Hin as [->|Hin]; [congruence|].
    specialize (IH (Raised e0)). rewrite E in IH. now apply IH.
Qed.

Lemma run_located environ net city api_key place :
  geocoded environ net city api_key place ->
  located place ->
  run net (get_weather environ city)
  = (fst (run net (weather_step (field place "lat") (field place "lon")
                     (py_or (field place "name") (VStr city)) api_key)),
     geocode_request city api_key
     :: snd (run net (weather_step (field place "lat") (field place "lon")
                        (py_or (field place "name") (VStr city)) api_key))).
Proof.
  intros (Henv & Hkey & geo_resp & rest & Hgeo & Hok & Hjson) [Hlat Hlon].
  rewrite (get_weather_keyed _ _ _ Henv Hkey), (run_geocode_step _ _ _ _ Hgeo),
    (after_geocode_place _ _ _ _ _ Hok Hjson), Hlat, Hlon.
  reflexivity.
Qed.

(** C9.  Whichever outbound call fails at the network layer (the profile
    call, the geocoding call, or the current-conditions call once the
    place is located), the route answers 502 with a detail that ends in
    the network error's text, and the run stops at that call; what is
    answered is that failure, never a summary.  This holds of every call
    either route makes. *)
Theorem network_failure_is_502 :
  (forall net username msg,
      net (github_request username) = RequestError msg ->
      run net (get_github_user username)
      = (HTTPException 502 ("Network error talking to GitHub: " ++ msg),
         [github_request username]))
  /\ (forall environ net city api_key msg,
         getenv environ key_var = Some api_key ->
         api_key <> EmptyString ->
         net (geocode_request city api_key) = RequestError msg ->
         run net (get_weather environ city)
         = (HTTPException 502
              ("Network error talking to OpenWeather Geocoding API: " ++ msg),
            [geocode_request city api_key]))
  /\ (forall environ net city api_key place msg,
         geocoded environ net city api_key place ->
         located place ->
         net (weather_request (field place "lat") (field place "lon") api_key)
         = RequestError msg ->
         run net (get_weather environ city)
         = (HTTPException 502
              ("Network error talking to OpenWeather Weather API: " ++ msg),
            [geocode_request city api_key;
             weather_request (field place "lat") (field place "lon") api_key]))
  /\ (forall net username rq msg,
         In rq (calls net (get_github_user username)) ->
         net rq = RequestError msg ->
         exists pre,
           answer net (get_github_user username)
           = HTTPException 502 (pre ++ msg))
  /\ (forall environ net city rq msg,
         In rq (calls net (get_weather environ city)) ->
         net rq = RequestError msg ->
         exists pre,
           answer net (get_weather environ city)
           = HTTPException 502 (pre ++ msg)).
Proof.
  repeat split.
  - intros net username msg H. cbn [get_github_user run]. now rewrite H.
  - intros environ net city api_key msg Henv Hkey H.
    rewrite (get_weather_keyed _ _ _ Henv Hkey).
    cbn [geocode_step run]. now rewrite H.
  - intros environ net city api_key place msg Hgeo Hloc H.
    rewrite (run_located _ _ _ _ _ Hgeo Hloc).
    cbn [weather_step run]. now rewrite H.
  - intros; eapply guarded_run; eauto using github_guarded.
  - intros; eapply guarded_run; eauto using weather_guarded.
Qed.

(** For the record: a body that does not decode is not caught by the
    [try] of either route; the exception of [r.json()] leaves the handler. *)
Lemma undecoded_profile_is_unhandled net username r e :
  net (github_request username) = Response r ->
  is_error r = false ->
  json r = Raise e ->
  answer net (get_github_user username) = Unhandled e.
Proof.
  intros Hnet Hok Hjson. unfold answer.
  rewrite (run_github _ _ _ Hnet); cbn [fst].
  now rewrite (github_answer_ok _ Hok), Hjson.
Qed.

End Handlers.

(** ** Further properties of the routes *)

Section Further.

Context {F : Type} {RT : Runtime F}.

Implicit Types (net : request F -> get_outcome F) (r : response F).
Implicit Types (d place : list (string * pyval F)) (v data payload : pyval F).

Ltac res_inv H :=
  repeat match type of H with
         | res_bind ?m _ = Val _ =>
             let E := fresh "E" in
             destruct m eqn:E; cbn [res_bind] in H; [|discriminate H]
         end.

Lemma missing_field d key : missing d key -> field d key = VNone.
Proof. unfold field; intros [-> | ->]; reflexivity. Qed.

(** *** The user lookup *)

(** X1.  The user lookup makes exactly one outbound call, the GET of the
    profile URL built on the username, whatever the network answers: no
    retry and no second request. *)
Theorem user_lookup_makes_one_call net username :
  calls net (get_github_user username) = [github_request username]
  /\ url (github_request (F := F) username)
     = "https://api.github.com/users/" ++ username.
Proof.
  split; [|reflexivity]. unfold calls. cbn [get_github_user run].
  destruct (net (github_request username)); reflexivity.
Qed.

(** X2.  An upstream error status other than 404 and 403 is forwarded by
    the user lookup: the caller sees the upstream's own status, with a
    detail that quotes it in decimal. *)
Theorem other_error_status_is_forwarded net username r :
  net (github_request username) = Response r ->
  is_error r = true ->
  status_code r <> 404 ->
  status_code r <> 403 ->
  answer net (get_github_user username)
  = HTTPException (status_code r)
      ("GitHub API error (" ++ str_of_int (status_code r) ++ ").")
  /\ visible_status (answer net (get_github_user username)) = status_code r.
Proof.
  intros Hnet Herr H404 H403. unfold answer.
  rewrite (run_github _ _ _ Hnet); cbn [fst]. unfold github_answer.
  apply Z.eqb_neq in H404, H403. rewrite H404, H403, Herr. split; reflexivity.
Qed.

(** X3.  The status the caller of the user lookup sees is 200, 404, 429,
    403, 500 or 502, or else the 4xx/5xx status the upstream answered;
    in particular an upstream 1xx or 3xx is never passed on. *)
Theorem user_lookup_status_range net username :
  In (visible_status (answer net (get_github_user username)))
    [200; 404; 429; 403; 500; 502]
  \/ exists r,
       net (github_request username) = Response r
       /\ is_error r = true
       /\ visible_status (answer net (get_github_user username))
          = status_code r.
Proof.
  unfold answer. cbn [get_github_user run].
  destruct (net (github_request username)) as [r|msg|e] eqn:Hnet;
    cbn [run fst]; [|left; simpl; auto 10..].
  unfold github_answer.
  destruct (status_code r =? 404); [left; simpl; auto 10|].
  destruct (status_code r =? 403).
  { destruct (_ || _); left; simpl; auto 10. }
  destruct (is_error r) eqn:Herr; [right; exists r; auto|].
  destruct (json r) as [data|e]; [|left; simpl; auto 10].
  destruct (build_user data); left; simpl; auto 10.
Qed.

(** X4.  The user lookup reports 404 only for an upstream 404: the
    caller sees 404 exactly when the profile call was answered 404. *)
Theorem not_found_only_for_upstream_404 net username :
  visible_status (answer net (get_github_user username)) = 404
  <-> exists r,
        net (github_request username) = Response r /\ status_code r = 404.
Proof.
  unfold answer. cbn [get_github_user run].
  destruct (net (github_request username)) as [r|msg|e] eqn:Hnet; cbn [run fst].
  - unfold github_answer.
    destruct (status_code r =? 404) eqn:H404.
    { apply Z.eqb_eq in H404. split; [eauto | reflexivity]. }
    apply Z.eqb_neq in H404.
    split; [|intros (r' & Hr & Hs); congruence].
    destruct (status_code r =? 403).
    { destruct (_ || _); discriminate. }
    destruct (is_error r); [cbn [visible_status]; congruence|].
    destruct (json r) as [data|e]; [|discriminate].
    destruct (build_user data); discriminate.
  - split; [discriminate | intros (r & Hr & _); discriminate].
  - split; [discriminate | intros (r & Hr & _); discriminate].
Qed.

(** X5.  The user lookup reports 429 in two cases only: an upstream 403
    that signals the rate limit, or an upstream 429, which is forwarded
    like any other error status. *)
Theorem too_many_requests_sources net username :
  visible_status (answer net (get_github_user username)) = 429
  <-> exists r,
        net (github_request username) = Response r
        /\ (status_code r = 403 /\ rate_limit_signalled r
            \/ status_code r = 429).
Proof.
  unfold answer. cbn [get_github_user run].
  destruct (net (github_request username)) as [r|msg|e] eqn:Hnet; cbn [run fst];
    [|split; [discriminate | intros (r & Hr & _); discriminate]..].
  unfold github_answer. pose proof (rate_limit_test r) as Htest.
  destruct (status_code r =? 404) eqn:H404.
  { apply Z.eqb_eq in H404. split; [discriminate|].
    intros (r' & Hr & [[Hs _]|Hs]); congruence. }
  destruct (status_code r =? 403) eqn:H403.
  { apply Z.eqb_eq in H403. destruct (_ || _).
    - split; [|reflexivity]. intros _. exists r. split; [reflexivity|].
      left. split; [assumption | now apply Htest].
    - split; [discriminate|].
      intros (r' & Hr & [[_ Hsig]|Hs]); [|congruence].
      injection Hr as <-. apply Htest in Hsig. discriminate. }
  apply Z.eqb_neq in H403.
  destruct (is_error r) eqn:Herr.
  { cbn [visible_status]. split.
    - intros Hs. exists r. auto.
    - intros (r' & Hr & [[Hs _]|Hs]); congruence. }
  assert (status_code r <> 429) as H429.
  { intros Hs. unfold is_error in Herr. rewrite Hs in Herr. discriminate. }
  split; [|intros (r' & Hr & [[Hs _]|Hs]); congruence].
  destruct (json r) as [data|e]; [|discriminate].
  destruct (build_user data); discriminate.
Qed.

(** X6.  A summary is returned by the user lookup only for a non-error
    answer whose body is a JSON object, and each of its five fields is
    read from that object: [login] and [name] as validated, each counter
    as [int()] of the field, or of 0 when the field is absent. *)
Theorem returned_profile_is_read_from_body net username user :
  answer net (get_github_user username) = Returned user ->
  exists r d,
    net (github_request username) = Response r
    /\ is_error r = false
    /\ json r = Val (VDict d)
    /\ validate_str (field d "login") = Val (login user)
    /\ validate_opt_str (field d "name") = Val (name user)
    /\ py_int (match assoc d "public_repos" with
               | Some v => v | None => VInt 0 end)
       = Val (public_repos user)
    /\ py_int (match assoc d "followers" with
               | Some v => v | None => VInt 0 end)
       = Val (followers user)
    /\ py_int (match assoc d "following" with
               | Some v => v | None => VInt 0 end)
       = Val (following user).
Proof.
  unfold answer. cbn [get_github_user run].
  destruct (net (github_request username)) as [r|msg|e] eqn:Hnet; cbn [run fst];
    [|discriminate..].
  unfold github_answer.
  destruct (status_code r =? 404); [discriminate|].
  destruct (status_code r =? 403); [destruct (_ || _); discriminate|].
  destruct (is_error r) eqn:Herr; [discriminate|].
  destruct (json r) as [data|e] eqn:Hjson; [|discriminate].
  destruct (build_user data) as [u|e] eqn:Hbuild; [|discriminate].
  intros [= ->]. destruct data as [| | | | | |d]; try discriminate Hbuild.
  unfold build_user in Hbuild.
  cbn [py_get py_get_default res_bind] in Hbuild. res_inv Hbuild.
  injection Hbuild as <-. exists r, d. cbn [login name public_repos followers
  following]. unfold field. auto 10.
Qed.

(** X7.  A profile object without [login] (no such key, or null) is
    answered 500 "Unexpected response shape from GitHub", whatever its
    other fields and whichever pydantic validates it. *)
Theorem missing_login_is_500 net username r d :
  net (github_request username) = Response r ->
  is_error r = false ->
  json r = Val (VDict d) ->
  missing d "login" ->
  exists e,
    answer net (get_github_user username)
    = HTTPException 500
        ("Unexpected response shape from GitHub: " ++ exn_text e).
Proof.
  intros Hnet Hok Hjson Hmiss. unfold answer.
  rewrite (run_github _ _ _ Hnet); cbn [fst].
  rewrite (github_answer_ok _ Hok), Hjson.
  destruct (build_user (VDict d)) as [u|e] eqn:Hbuild; [|eauto].
  exfalso. assert (profile_shape (VDict d)) as (d' & Heq & [l Hl] & _)
      by (apply build_user_shape; eauto).
  injection Heq as <-. rewrite (missing_field _ _ Hmiss) in Hl. discriminate Hl.
Qed.

(** X8.  A counter that is present but null is not defaulted to 0: the
    profile is answered 500 "Unexpected response shape from GitHub". *)
Theorem null_counter_is_500 net username r d key :
  net (github_request username) = Response r ->
  is_error r = false ->
  json r = Val (VDict d) ->
  In key ["public_repos"; "followers"; "following"] ->
  assoc d key = Some VNone ->
  exists e,
    answer net (get_github_user username)
    = HTTPException 500
        ("Unexpected response shape from GitHub: " ++ exn_text e).
Proof.
  intros Hnet Hok Hjson Hkey Hnull. unfold answer.
  rewrite (run_github _ _ _ Hnet); cbn [fst].
  rewrite (github_answer_ok _ Hok), Hjson.
  destruct (build_user (VDict d)) as [u|e] eqn:Hbuild; [|eauto].
  exfalso. assert (profile_shape (VDict d)) as (d' & Heq & _ & _ & Hc)
      by (apply build_user_shape; eauto).
  injection Heq as <-. destruct (Hc key Hkey) as [n Hn].
  rewrite Hnull in Hn. discriminate Hn.
Qed.

(** A counter given as an ASCII numeral of more digits than the
    interpreter converts is refused by [int()]: the profile is answered
    500 "Unexpected response shape from GitHub". *)
Lemma overlong_counter_is_500 net username r d key s n :
  net (github_request username) = Response r ->
  is_error r = false ->
  json r = Val (VDict d) ->
  In key ["public_repos"; "followers"; "following"] ->
  assoc d key = Some (VStr s) ->
  ascii_int_of_str s = Some n ->
  within_limit max_str_digits (numeral_digits s) = false ->
  exists e,
    answer net (get_github_user username)
    = HTTPException 500
        ("Unexpected response shape from GitHub: " ++ exn_text e).
Proof.
  intros Hnet Hok Hjson Hkey Hs Hread Hlong. unfold answer.
  rewrite (run_github _ _ _ Hnet); cbn [fst].
  rewrite (github_answer_ok _ Hok), Hjson.
  destruct (build_user (VDict d)) as [u|e] eqn:Hbuild; [|eauto].
  exfalso. assert (profile_shape (VDict d)) as (d' & Heq & _ & _ & Hc)
      by (apply build_user_shape; eauto).
  injection Heq as <-. destruct (Hc key Hkey) as [m Hm].
  rewrite Hs in Hm. cbn [py_int] in Hm. unfold int_of_str in Hm.
  rewrite Hread, Hlong in Hm. discriminate Hm.
Qed.

(** *** The weather lookup *)

Lemma get_weather_unkeyed environ city :
  getenv environ key_var = None \/ getenv environ key_var = Some EmptyString ->
  get_weather environ city
  = Ret (HTTPException 500
           "OpenWeather API key not configured. Set OPENWEATHER_API_KEY env var or .env file.").
Proof. unfold get_weather, key_var. intros [-> | ->]; reflexivity. Qed.

Lemma key_cases environ :
  (getenv environ key_var = None \/ getenv environ key_var = Some EmptyString)
  \/ exists api_key,
       getenv environ key_var = Some api_key /\ api_key <> EmptyString.
Proof.
  destruct (getenv environ key_var) as [[|c k]|]; auto.
  right. eexists. split; [reflexivity | discriminate].
Qed.

(** Lines 142-148 on a first element that is an object. *)
Lemma read_place_object place city :
  read_place (VDict place) city
  = Val (field place "lat", field place "lon",
         py_or (field place "name") (VStr city)).
Proof. reflexivity. Qed.

Lemma read_place_other first city :
  (forall place, first <> VDict place) ->
  read_place first city = Raise AttributeError.
Proof. intros H. destruct first; try reflexivity. now destruct (H d). Qed.

(** X9.  A provider key that is set but empty counts as missing: the
    weather route answers 500 with the instruction to set it and makes no
    outbound call. *)
Theorem empty_key_is_500_without_calls environ net city :
  getenv environ key_var = Some EmptyString ->
  run net (get_weather environ city)
  = (HTTPException 500
       "OpenWeather API key not configured. Set OPENWEATHER_API_KEY env var or .env file.",
     []).
Proof. intros H. rewrite get_weather_unkeyed; auto. Qed.

(** X10.  An error status of the geocoding call is forwarded: the caller
    sees the upstream's own 4xx/5xx status with the detail "OpenWeather
    geocoding API error.", and the current-conditions call is not made. *)
Theorem geocoding_error_status_is_forwarded
    environ net city api_key geo_resp :
  getenv environ key_var = Some api_key ->
  api_key <> EmptyString ->
  net (geocode_request city api_key) = Response geo_resp ->
  is_error geo_resp = true ->
  run net (get_weather environ city)
  = (HTTPException (status_code geo_resp) "OpenWeather geocoding API error.",
     [geocode_request city api_key]).
Proof.
  intros Henv Hkey Hgeo Herr.
  rewrite (get_weather_keyed _ _ _ Henv Hkey), (run_geocode_step _ _ _ _ Hgeo).
  unfold after_geocode. now rewrite Herr.
Qed.

(** X11.  An error status of the current-conditions call is forwarded:
    the caller sees the upstream's own 4xx/5xx status with the detail
    "OpenWeather weather API error.", after both calls were made. *)
Theorem conditions_error_status_is_forwarded
    environ net city api_key place w_resp :
  geocoded environ net city api_key place ->
  located place ->
  net (weather_request (field place "lat") (field place "lon") api_key)
  = Response w_resp ->
  is_error w_resp = true ->
  run net (get_weather environ city)
  = (HTTPException (status_code w_resp) "OpenWeather weather API error.",
     [geocode_request city api_key;
      weather_request (field place "lat") (field place "lon") api_key]).
Proof.
  intros Hgeo Hloc Hw Herr.
  rewrite (run_located _ _ _ _ _ Hgeo Hloc), (run_weather_step _ _ _ _ _ _ Hw).
  unfold weather_answer. now rewrite Herr.
Qed.

(** X12.  When the first element of the geocoding list is not a JSON
    object (a number, a str, null, a list), [first.get] raises outside any
    [try]: the AttributeError leaves the handler and only the geocoding
    call was made. *)
Theorem non_object_place_is_unhandled
    environ net city api_key geo_resp first rest :
  getenv environ key_var = Some api_key ->
  api_key <> EmptyString ->
  net (geocode_request city api_key) = Response geo_resp ->
  is_error geo_resp = false ->
  json geo_resp = Val (VList (first :: rest)) ->
  (forall place, first <> VDict place) ->
  run net (get_weather environ city)
  = (Unhandled AttributeError, [geocode_request city api_key]).
Proof.
  intros Henv Hkey Hgeo Hok Hjson Hfirst.
  rewrite (get_weather_keyed _ _ _ Henv Hkey), (run_geocode_step _ _ _ _ Hgeo).
  unfold after_geocode. rewrite Hok, Hjson, (read_place_other _ _ Hfirst).
  reflexivity.
Qed.

(** X13.  A body that does not decode, on a non-error answer of any of
    the three calls, is not caught: [json()] is called before the [try]
    (lines 97, 138, 161) and its exception leaves the handler, after one
    call for the profile and the geocoding body and after two for the
    current-conditions body. *)
Theorem undecoded_bodies_are_unhandled :
  (forall net username r e,
      net (github_request username) = Response r ->
      is_error r = false ->
      json r = Raise e ->
      run net (get_github_user username)
      = (Unhandled e, [github_request username]))
  /\ (forall environ net city api_key geo_resp e,
         getenv environ key_var = Some api_key ->
         api_key <> EmptyString ->
         net (geocode_request city api_key) = Response geo_resp ->
         is_error geo_resp = false ->
         json geo_resp = Raise e ->
         run net (get_weather environ city)
         = (Unhandled e, [geocode_request city api_key]))
  /\ (forall environ net city api_key place w_resp e,
         geocoded environ net city api_key place ->
         located place ->
         net (weather_request (field place "lat") (field place "lon") api_key)
         = Response w_resp ->
         is_error w_resp = false ->
         json w_resp = Raise e ->
         run net (get_weather environ city)
         = (Unhandled e,
            [geocode_request city api_key;
             weather_request (field place "lat") (field place "lon")
               api_key])).
Proof.
  split; [|split].
  - intros net username r e Hnet Hok Hjson.
    rewrite (run_github _ _ _ Hnet).
    now rewrite (github_answer_ok _ Hok), Hjson.
  - intros environ net city api_key geo_resp e Henv Hkey Hgeo Hok Hjson.
    rewrite (get_weather_keyed _ _ _ Henv Hkey),
      (run_geocode_step _ _ _ _ Hgeo).
    unfold after_geocode. now rewrite Hok, Hjson.
  - intros environ net city api_key place w_resp e Hgeo Hloc Hw Hok Hjson.
    rewrite (run_located _ _ _ _ _ Hgeo Hloc),
      (run_weather_step _ _ _ _ _ _ Hw).
    unfold weather_answer. now rewrite Hok, Hjson.
Qed.

(** X14.  The reported city is validated after the [try] of lines
    162-166: when the place's [name] is a non-empty list or object
    (truthy, so not replaced by the caller's city, and no str), the
    ValidationError of the response model leaves the handler although
    both calls succeeded and the conditions were readable. *)
Theorem unvalidated_name_is_unhandled
    environ net city api_key place payload tv dv t x xs x' :
  geocoded environ net city api_key place ->
  located place ->
  conditions net api_key place payload ->
  conditions_shape payload tv dv ->
  py_float tv = Val t ->
  field place "name" = VList (x :: xs)
  \/ (exists kvs, field place "name" = VDict (x' :: kvs)) ->
  run net (get_weather environ city)
  = (Unhandled ValidationError,
     [geocode_request city api_key;
      weather_request (field place "lat") (field place "lon") api_key]).
Proof.
  intros Hgeo Hloc Hcond Hshape Hfloat Hname.
  rewrite (run_conditions _ _ _ _ _ _ Hgeo Hloc Hcond).
  assert (read_weather payload = Val (t, py_str dv)) as ->
      by (apply read_weather_shape; eauto).
  destruct Hname as [-> | [kvs ->]]; reflexivity.
Qed.

(** The geocoding answer, read as lines 135-148 do. *)
Lemma after_geocode_cases city api_key geo_resp :
  (exists o, after_geocode city api_key geo_resp = Ret o
             /\ ((is_error geo_resp = true
                  /\ visible_status o = status_code geo_resp)
                 \/ In (visible_status o) [404; 500; 502])
             /\ forall w, o <> Returned w)
  \/ exists place rest,
       is_error geo_resp = false
       /\ json geo_resp = Val (VList (VDict place :: rest))
       /\ located place
       /\ after_geocode city api_key geo_resp
          = weather_step (field place "lat") (field place "lon")
              (py_or (field place "name") (VStr city)) api_key.
Proof.
  unfold after_geocode.
  destruct (is_error geo_resp) eqn:Herr.
  { left. eexists. split; [reflexivity|]. split; [left; auto|discriminate]. }
  destruct (json geo_resp) as [v|e] eqn:Hjson.
  2:{ left. eexists. split; [reflexivity|].
      split; [right; simpl; auto|discriminate]. }
  destruct v as [| | | | |[|first rest]|];
    try (left; eexists; split; [reflexivity|];
         split; [right; simpl; auto|discriminate]).
  destruct first as [| | | | | |place];
    try (left; eexists; split; [reflexivity|];
         split; [right; simpl; auto|discriminate]).
  rewrite read_place_object.
  destruct (is_none (field place "lat") || is_none (field place "lon"))
    eqn:Hnone.
  { left. eexists. split; [reflexivity|].
    split; [right; simpl; auto|discriminate]. }
  right. exists place, rest. apply orb_false_iff in Hnone.
  unfold located. auto.
Qed.

(** X15.  The weather route makes no call without a usable key, and
    otherwise at most two, in this order: the geocoding call for the
    caller's city, then, only for a place that carries both coordinates,
    the current-conditions call for those coordinates; both carry the key
    of the environment. *)
Theorem weather_call_discipline environ net city :
  ((getenv environ key_var = None
    \/ getenv environ key_var = Some EmptyString)
   /\ calls net (get_weather environ city) = [])
  \/ exists api_key,
       getenv environ key_var = Some api_key
       /\ api_key <> EmptyString
       /\ (calls net (get_weather environ city)
           = [geocode_request city api_key]
           \/ exists place,
                geocoded environ net city api_key place
                /\ located place
                /\ calls net (get_weather environ city)
                   = [geocode_request city api_key;
                      weather_request (field place "lat")
                        (field place "lon") api_key]).
Proof.
  unfold calls.
  destruct (key_cases environ) as [Hno | (api_key & Henv & Hkey)].
  { left. split; [assumption|]. now rewrite get_weather_unkeyed. }
  right. exists api_key. split; [assumption|]. split; [assumption|].
  rewrite (get_weather_keyed _ _ _ Henv Hkey). cbn [geocode_step run].
  destruct (net (geocode_request city api_key)) as [g|msg|e] eqn:Hgeo;
    [|left; reflexivity..].
  destruct (after_geocode_cases city api_key g)
    as [(o & -> & _) | (place & rest & Hok & Hjson & Hloc & ->)];
    [left; reflexivity|].
  right. exists place. split; [|split; [assumption|]].
  { split; [assumption|]. split; [assumption|]. eauto. }
  cbn [weather_step run].
  destruct (net (weather_request _ _ _)); reflexivity.
Qed.

(** X16.  The status the caller of the weather route sees is 200, 404,
    500 or 502, or else the 4xx/5xx status one of the two upstream calls
    answered. *)
Theorem weather_status_range environ net city :
  In (visible_status (answer net (get_weather environ city)))
    [200; 404; 500; 502]
  \/ exists rq r,
       In rq (calls net (get_weather environ city))
       /\ net rq = Response r
       /\ is_error r = true
       /\ visible_status (answer net (get_weather environ city))
          = status_code r.
Proof.
  unfold answer, calls.
  destruct (key_cases environ) as [Hno | (api_key & Henv & Hkey)].
  { left. rewrite get_weather_unkeyed by assumption. simpl; auto. }
  rewrite (get_weather_keyed _ _ _ Henv Hkey). cbn [geocode_step run].
  destruct (net (geocode_request city api_key)) as [g|msg|e] eqn:Hgeo;
    [|left; simpl; auto..].
  destruct (after_geocode_cases city api_key g)
    as [(o & -> & Hst & _) | (place & rest & Hok & Hjson & Hloc & ->)].
  { cbn [run fst snd]. destruct Hst as [[Herr Hst] | Hst].
    - right. exists (geocode_request city api_key), g. simpl; auto.
    - left. simpl in Hst |- *. intuition. }
  cbn [weather_step run].
  destruct (net (weather_request _ _ _)) as [w|msg|e] eqn:Hw;
    cbn [run fst snd]; [|left; simpl; auto..].
  unfold weather_answer.
  destruct (is_error w) eqn:Herr.
  { right. eexists _, w. split; [right; left; reflexivity|]. auto. }
  destruct (json w) as [payload|e]; [|left; simpl; auto].
  destruct (read_weather payload) as [[t desc]|e]; [|left; simpl; auto].
  destruct (validate_str _); left; simpl; auto.
Qed.

(** X17.  A weather summary is returned only when both calls were
    answered without an error status, for a place with both coordinates;
    its [temperature] is [float()] of the payload's [main.temp], its
    [weather_description] is [str()] of the first [weather] element's
    description, and its [city] is the validated name of the place or, for
    a falsy name, the caller's city: nothing in it is made up. *)
Theorem returned_weather_is_read_from_bodies environ net asked summary :
  answer net (get_weather environ asked) = Returned summary ->
  exists api_key place payload tv dv,
    geocoded environ net asked api_key place
    /\ located place
    /\ conditions net api_key place payload
    /\ conditions_shape payload tv dv
    /\ py_float tv = Val (temperature summary)
    /\ weather_description summary = py_str dv
    /\ validate_str (py_or (field place "name") (VStr asked))
       = Val (city summary).
Proof.
  unfold answer.
  destruct (key_cases environ) as [Hno | (api_key & Henv & Hkey)].
  { rewrite get_weather_unkeyed by assumption. discriminate. }
  rewrite (get_weather_keyed _ _ _ Henv Hkey). cbn [geocode_step run].
  destruct (net (geocode_request asked api_key)) as [g|msg|e] eqn:Hgeo;
    [|discriminate..].
  destruct (after_geocode_cases asked api_key g)
    as [(o & -> & _ & Hno) | (place & rest & Hok & Hjson & Hloc & ->)].
  { cbn [run fst]. intros H. now destruct (Hno summary). }
  cbn [weather_step run].
  destruct (net (weather_request _ _ _)) as [w|msg|e] eqn:Hw;
    cbn [run fst]; [|discriminate..].
  unfold weather_answer.
  destruct (is_error w) eqn:Herr; [discriminate|].
  destruct (json w) as [payload|e] eqn:Hwjson; [|discriminate].
  destruct (read_weather payload) as [[t desc]|e] eqn:Hread; [|discriminate].
  destruct (validate_str _) as [c|e] eqn:Hcity; [|discriminate].
  intros [= <-]. apply read_weather_shape in Hread.
  destruct Hread as (tv & dv & Hshape & Hfloat & ->).
  exists api_key, place, payload, tv, dv.
  split; [split; [assumption|]; split; [assumption|]; eauto|].
  split; [assumption|]. split; [exists w; auto|]. auto.
Qed.

Lemma not_none v : v <> VNone -> is_none v = false.
Proof. destruct v; try reflexivity. congruence. Qed.

(** X18.  A coordinate counts as given whenever it is not null: a
    latitude or longitude that is falsy (0, 0.0, false, an empty str) does
    not stop the route, and the current-conditions call is made with the
    two values as decoded. *)
Theorem falsy_coordinates_are_used environ net city api_key place :
  geocoded environ net city api_key place ->
  field place "lat" <> VNone ->
  field place "lon" <> VNone ->
  calls net (get_weather environ city)
  = [geocode_request city api_key;
     weather_request (field place "lat") (field place "lon") api_key].
Proof.
  intros Hgeo Hlat Hlon. unfold calls.
  rewrite (run_located _ _ _ _ _ Hgeo (conj (not_none _ Hlat) (not_none _ Hlon))).
  cbn [weather_step run snd].
  destruct (net (weather_request _ _ _)); reflexivity.
Qed.

(** X19.  Only the first place of the geocoding list is used: two
    geocoding answers that agree on their first element lead to the same
    answer and the same calls, whatever follows it in either list. *)
Theorem later_places_are_ignored
    environ net net' city api_key g g' first rest rest' :
  getenv environ key_var = Some api_key ->
  api_key <> EmptyString ->
  net (geocode_request city api_key) = Response g ->
  net' (geocode_request city api_key) = Response g' ->
  is_error g = false ->
  is_error g' = false ->
  json g = Val (VList (first :: rest)) ->
  json g' = Val (VList (first :: rest')) ->
  (forall lat lon,
      net' (weather_request lat lon api_key)
      = net (weather_request lat lon api_key)) ->
  run net (get_weather environ city) = run net' (get_weather environ city).
Proof.
  intros Henv Hkey Hg Hg' Hok Hok' Hjson Hjson' Hsame.
  rewrite (get_weather_keyed _ _ _ Henv Hkey),
    (run_geocode_step _ _ _ _ Hg), (run_geocode_step _ _ _ _ Hg').
  assert (after_geocode city api_key g = after_geocode city api_key g') as ->
      by (unfold after_geocode; now rewrite Hok, Hok', Hjson, Hjson').
  destruct (after_geocode_cases city api_key g')
    as [(o & -> & _) | (place & more & _ & _ & _ & ->)]; [reflexivity|].
  cbn [weather_step run]. rewrite Hsame.
  destruct (net (weather_request _ _ _)); reflexivity.
Qed.

End Further.

(** ** Worked examples *)

#[local] Existing Instance Sample.runtime.

Lemma sample_geocoded geo weather city place :
  geo = Sample.ok (VList [VDict place]) ->
  geocoded Sample.environ (Sample.weather_net geo weather) city "k3y" place.
Proof.
  intros ->. split; [reflexivity|]. split; [discriminate|].
  eexists _, []. repeat split.
Qed.

Lemma sample_conditions geo payload place :
  conditions (Sample.weather_net geo (Sample.ok payload)) "k3y" place payload.
Proof. eexists. repeat split. Qed.

Lemma drizzle_shape :
  conditions_shape Sample.drizzle (VFloat (25, 2%positive))
    (VStr "light drizzle").
Proof. unfold conditions_shape, Sample.drizzle. repeat eexists. Qed.

Lemma coded_shape :
  conditions_shape Sample.coded (VFloat (25, 2%positive)) (VInt 5).
Proof. unfold conditions_shape, Sample.coded. repeat eexists. Qed.

Lemma torn_profile_shapeless : ~ profile_shape Sample.torn_profile.
Proof.
  intros (d & Heq & _ & _ & Hc). injection Heq as <-.
  destruct (Hc "followers") as [n Hn]; [simpl; auto|]. discriminate Hn.
Qed.

Lemma templess_unreadable : ~ conditions_readable Sample.templess.
Proof.
  intros (tv & dv & t & (p & m & w0 & ws & Heq & Hmain & Htemp & _) & _).
  injection Heq as <-. injection Hmain as <-. discriminate Htemp.
Qed.

Lemma upstream_404_example :
  status_code Sample.gone = 404
  /\ answer (Sample.user_net (Response Sample.gone)) (get_github_user "ghost")
     = HTTPException 404 "GitHub user not found".
Proof.
  split; [reflexivity|].
  apply (upstream_404_is_not_found
           (Sample.user_net (Response Sample.gone)) "ghost" Sample.gone);
    reflexivity.
Defined.

Lemma throttled_example :
  status_code Sample.throttled = 403
  /\ rate_limit_signalled Sample.throttled
  /\ answer (Sample.user_net (Response Sample.throttled))
        (get_github_user "octocat")
     = HTTPException 429
         "GitHub API rate limit exceeded. Try again later or add a token.".
Proof.
  assert (rate_limit_signalled Sample.throttled) as Hsign
      by (left; reflexivity).
  split; [reflexivity|]. split; [exact Hsign|].
  apply (forbidden_is_rate_limit_or_403
           (Sample.user_net (Response Sample.throttled)) "octocat"
           Sample.throttled);
    [reflexivity | reflexivity | exact Hsign].
Defined.

Lemma octocat_example :
  answer (Sample.user_net (Response Sample.profile_resp))
    (get_github_user "octocat")
  = Returned {| login := "octocat"; name := Some "The Octocat";
                public_repos := 12; followers := 9000; following := 0 |}.
Proof.
  apply (well_formed_profile_is_summarised
           (Sample.user_net (Response Sample.profile_resp)) "octocat"
           Sample.profile_resp Sample.profile);
    try reflexivity.
  - apply name_str; reflexivity.
  - apply counter_numeral; reflexivity.
  - apply counter_int; reflexivity.
  - apply counter_absent; reflexivity.
Defined.

Lemma torn_bodies_example :
  (exists e,
      answer (Sample.user_net (Response Sample.torn_resp))
        (get_github_user "octocat")
      = HTTPException 500
          ("Unexpected response shape from GitHub: " ++ exn_text e))
  /\ (exists e,
         answer (Sample.weather_net (Sample.ok (VList [VDict Sample.london]))
                   (Sample.ok Sample.templess))
           (get_weather Sample.environ "london")
         = HTTPException 500
             ("Unexpected response shape from OpenWeather: " ++ exn_text e)).
Proof.
  destruct unreadable_shape_is_500 as (Huser & Hweather & _). split.
  - apply (Huser _ _ Sample.torn_resp Sample.torn_profile);
      try reflexivity. exact torn_profile_shapeless.
  - apply (Hweather _ _ _ "k3y" Sample.london Sample.templess).
    + now apply sample_geocoded.
    + split; reflexivity.
    + apply sample_conditions.
    + exact templess_unreadable.
Defined.

(** C4 as stated fails under an interpreter that limits the digits
    [int()] converts (4300 by default): a non-error profile whose
    [followers] is a one followed by 4300 zeros, a decimal numeral of
    4301 digits, is not summarised; [int()] refuses the numeral and the
    route answers 500. *)
Lemma overlong_numeral_is_refused :
  ascii_int_of_str Cases.overlong <> None
  /\ numeral_digits Cases.overlong = 4301%nat
  /\ is_error (Cases.body Cases.followed) = false
  /\ answer (Sample.user_net (Response (Cases.body Cases.followed)))
        (get_github_user "octocat")
     = HTTPException 500
         ("Unexpected response shape from GitHub: " ++ exn_text ValueError).
Proof.
  split; [|split; [|split]]; try reflexivity.
  intros H.
  apply (f_equal (fun o : option Z =>
                    match o with Some _ => true | None => false end)) in H.
  lazy in H. discriminate H.
Qed.

(** C2 as stated fails: a current-conditions payload whose
    [weather[0].description] is the number 5, not a str, is not answered
    500; the route returns a summary with the description "5". *)
Lemma ill_typed_description_is_returned :
  conditions_shape Sample.coded (VFloat (25, 2%positive)) (VInt 5)
  /\ answer (Sample.weather_net (Sample.ok (VList [VDict Sample.london]))
               (Sample.ok Sample.coded))
        (get_weather Sample.environ "London")
     = Returned {| city := "London"; temperature := (25, 2%positive);
                   weather_description := "5" |}.
Proof. split; [exact coded_shape | reflexivity]. Qed.

Lemma unset_key_example :
  getenv [("HOME", "/srv")] key_var = None
  /\ run (Sample.weather_net Sample.refused Sample.refused)
        (get_weather [("HOME", "/srv")] "London")
     = (HTTPException 500
          "OpenWeather API key not configured. Set OPENWEATHER_API_KEY env var or .env file.",
        []).
Proof.
  split; [reflexivity|].
  apply (missing_key_is_500_without_calls [("HOME", "/srv")]); reflexivity.
Defined.

Lemma unknown_city_example :
  run (Sample.weather_net (Sample.ok (VList [])) Sample.refused)
    (get_weather Sample.environ "aTlAnTiS")
  = (HTTPException 404 "Invalid city name or city not found.",
     [geocode_request "aTlAnTiS" "k3y"]).
Proof.
  apply (no_place_is_404 Sample.environ
           (Sample.weather_net (Sample.ok (VList [])) Sample.refused)
           "aTlAnTiS" "k3y"
           {| status_code := 200; headers := []; json := Val (VList []) |}
           (VList []));
    try reflexivity; [discriminate | right; reflexivity].
Defined.

Lemma half_place_example :
  missing Sample.half_place "lon"
  /\ run (Sample.weather_net (Sample.ok (VList [VDict Sample.half_place]))
            (Sample.ok Sample.drizzle))
        (get_weather Sample.environ "Nowhere")
     = (HTTPException 502 "Geocoding returned no coordinates.",
        [geocode_request "Nowhere" "k3y"]).
Proof.
  assert (missing Sample.half_place "lon") as Hmiss by (left; reflexivity).
  split; [exact Hmiss|].
  apply (no_coordinates_is_502 Sample.environ _ "Nowhere" "k3y"
           Sample.half_place).
  - now apply sample_geocoded.
  - right; exact Hmiss.
Defined.

Lemma london_example :
  run (Sample.weather_net (Sample.ok (VList [VDict Sample.london]))
         (Sample.ok Sample.drizzle))
    (get_weather Sample.environ "london")
  = (Returned {| city := "London"; temperature := (25, 2%positive);
                 weather_description := "light drizzle" |},
     [geocode_request "london" "k3y";
      weather_request (VFloat (515074, 10000%positive))
        (VFloat (-1278, 10000%positive)) "k3y"]).
Proof.
  apply (weather_flow_is_summarised Sample.environ _ "london" "k3y"
           Sample.london Sample.drizzle (VFloat (25, 2%positive))).
  - now apply sample_geocoded.
  - split; reflexivity.
  - apply sample_conditions.
  - exact drizzle_shape.
  - left; reflexivity.
  - apply resolved_given; [reflexivity | discriminate].
Defined.

Lemma unnamed_place_example :
  assoc Sample.unnamed_place "name" = Some (VStr EmptyString)
  /\ answer (Sample.weather_net (Sample.ok (VList [VDict Sample.unnamed_place]))
               (Sample.ok Sample.drizzle))
        (get_weather Sample.environ "LoNdOn")
     = Returned {| city := "LoNdOn"; temperature := (25, 2%positive);
                   weather_description := "light drizzle" |}.
Proof.
  split; [reflexivity|].
  apply (falsy_name_falls_back_to_input Sample.environ _ "LoNdOn" "k3y"
           Sample.unnamed_place Sample.drizzle (VFloat (25, 2%positive))
           (VStr "light drizzle")).
  - now apply sample_geocoded.
  - split; reflexivity.
  - apply sample_conditions.
  - exact drizzle_shape.
  - reflexivity.
  - left; reflexivity.
Defined.

Lemma refused_example :
  run (Sample.user_net Sample.refused) (get_github_user "octocat")
  = (HTTPException 502 "Network error talking to GitHub: connection refused",
     [github_request "octocat"])
  /\ run (Sample.weather_net (Sample.ok (VList [VDict Sample.london]))
            Sample.refused)
        (get_weather Sample.environ "London")
     = (HTTPException 502
          "Network error talking to OpenWeather Weather API: connection refused",
        [geocode_request "London" "k3y";
         weather_request (VFloat (515074, 10000%positive))
           (VFloat (-1278, 10000%positive)) "k3y"]).
Proof.
  destruct network_failure_is_502 as (Huser & _ & Hweather & _). split.
  - apply (Huser _ "octocat" "connection refused"); reflexivity.
  - apply (Hweather Sample.environ _ "London" "k3y" Sample.london
             "connection refused").
    + now apply sample_geocoded.
    + split; reflexivity.
    + reflexivity.
Defined.

(** ** Worked examples of the further properties *)

Lemma teapot_example :
  answer (Sample.user_net (Response (Cases.status_only 418)))
    (get_github_user "octocat")
  = HTTPException 418 "GitHub API error (418).".
Proof.
  apply (other_error_status_is_forwarded
           (Sample.user_net (Response (Cases.status_only 418))) "octocat"
           (Cases.status_only 418));
    [reflexivity | reflexivity | discriminate | discriminate].
Defined.

Lemma octocat_origin_example :
  exists r,
    Sample.user_net (Response Sample.profile_resp) (github_request "octocat")
    = Response r
    /\ is_error r = false.
Proof.
  assert (answer (Sample.user_net (Response Sample.profile_resp))
            (get_github_user "octocat")
          = Returned {| login := "octocat"; name := Some "The Octocat";
                        public_repos := 12; followers := 9000;
                        following := 0 |}) as Hret by reflexivity.
  destruct (returned_profile_is_read_from_body _ _ _ Hret)
    as (r & d & Hnet & Hok & _).
  exists r. split; assumption.
Defined.

Lemma anonymous_example :
  missing Cases.anonymous "login"
  /\ exists e,
       answer (Sample.user_net (Response (Cases.body Cases.anonymous)))
         (get_github_user "nobody")
       = HTTPException 500
           ("Unexpected response shape from GitHub: " ++ exn_text e).
Proof.
  assert (missing Cases.anonymous "login") as Hmiss by (left; reflexivity).
  split; [exact Hmiss|].
  apply (missing_login_is_500 _ "nobody" (Cases.body Cases.anonymous)
           Cases.anonymous);
    [reflexivity | reflexivity | reflexivity | exact Hmiss].
Defined.

Lemma unfollowed_example :
  assoc Cases.unfollowed "followers" = Some VNone
  /\ exists e,
       answer (Sample.user_net (Response (Cases.body Cases.unfollowed)))
         (get_github_user "octocat")
       = HTTPException 500
           ("Unexpected response shape from GitHub: " ++ exn_text e).
Proof.
  split; [reflexivity|].
  apply (null_counter_is_500 _ "octocat" (Cases.body Cases.unfollowed)
           Cases.unfollowed "followers");
    [reflexivity | reflexivity | reflexivity | simpl; auto | reflexivity].
Defined.

Lemma empty_key_example :
  getenv [(key_var, EmptyString)] key_var = Some EmptyString
  /\ calls (Sample.weather_net Sample.refused Sample.refused)
       (get_weather [(key_var, EmptyString)] "London")
     = [].
Proof.
  split; [reflexivity|]. unfold calls.
  rewrite (empty_key_is_500_without_calls [(key_var, EmptyString)]
             (Sample.weather_net Sample.refused Sample.refused) "London"
             eq_refl).
  reflexivity.
Defined.

Lemma unauthorized_example :
  run (Sample.weather_net (Response (Cases.status_only 401)) Sample.refused)
    (get_weather Sample.environ "London")
  = (HTTPException 401 "OpenWeather geocoding API error.",
     [geocode_request "London" "k3y"]).
Proof.
  apply (geocoding_error_status_is_forwarded Sample.environ _ "London" "k3y"
           (Cases.status_only 401));
    [reflexivity | discriminate | reflexivity | reflexivity].
Defined.

Lemma unavailable_example :
  run (Sample.weather_net (Sample.ok (VList [VDict Sample.london]))
         (Response (Cases.status_only 503)))
    (get_weather Sample.environ "London")
  = (HTTPException 503 "OpenWeather weather API error.",
     [geocode_request "London" "k3y";
      weather_request (VFloat (515074, 10000%positive))
        (VFloat (-1278, 10000%positive)) "k3y"]).
Proof.
  apply (conditions_error_status_is_forwarded Sample.environ _ "London" "k3y"
           Sample.london (Cases.status_only 503)).
  - now apply sample_geocoded.
  - split; reflexivity.
  - reflexivity.
  - reflexivity.
Defined.

Lemma odd_place_example :
  run (Sample.weather_net (Sample.ok (VList [VInt 3])) Sample.refused)
    (get_weather Sample.environ "London")
  = (Unhandled AttributeError, [geocode_request "London" "k3y"]).
Proof.
  apply (non_object_place_is_unhandled Sample.environ _ "London" "k3y"
           {| status_code := 200; headers := [];
              json := Val (VList [VInt 3]) |} (VInt 3) []);
    try reflexivity; discriminate.
Defined.

Lemma garbled_bodies_example :
  run (Sample.user_net (Response Cases.garbled)) (get_github_user "octocat")
  = (Unhandled JSONDecodeError, [github_request "octocat"])
  /\ run (Sample.weather_net (Response Cases.garbled) Sample.refused)
       (get_weather Sample.environ "London")
     = (Unhandled JSONDecodeError, [geocode_request "London" "k3y"])
  /\ run (Sample.weather_net (Sample.ok (VList [VDict Sample.london]))
            (Response Cases.garbled))
       (get_weather Sample.environ "London")
     = (Unhandled JSONDecodeError,
        [geocode_request "London" "k3y";
         weather_request (VFloat (515074, 10000%positive))
           (VFloat (-1278, 10000%positive)) "k3y"]).
Proof.
  destruct (undecoded_bodies_are_unhandled (RT := Sample.runtime))
    as (Huser & Hgeo & Hw).
  split; [|split].
  - apply (Huser _ "octocat" Cases.garbled); reflexivity.
  - apply (Hgeo Sample.environ _ "London" "k3y" Cases.garbled);
      [reflexivity | discriminate | reflexivity | reflexivity | reflexivity].
  - apply (Hw Sample.environ _ "London" "k3y" Sample.london Cases.garbled).
    + now apply sample_geocoded.
    + split; reflexivity.
    + reflexivity.
    + reflexivity.
    + reflexivity.
Defined.

Lemma many_names_example :
  run (Sample.weather_net (Sample.ok (VList [VDict Cases.many_names]))
         (Sample.ok Sample.drizzle))
    (get_weather Sample.environ "London")
  = (Unhandled ValidationError,
     [geocode_request "London" "k3y";
      weather_request (VInt 51) (VInt 0) "k3y"]).
Proof.
  apply (unvalidated_name_is_unhandled Sample.environ _ "London" "k3y"
           Cases.many_names Sample.drizzle (VFloat (25, 2%positive))
           (VStr "light drizzle") (25, 2%positive)
           (VStr "London") [VStr "Londres"] (EmptyString, VNone)).
  - now apply sample_geocoded.
  - split; reflexivity.
  - apply sample_conditions.
  - exact drizzle_shape.
  - reflexivity.
  - left; reflexivity.
Defined.

Lemma london_origin_example :
  exists api_key place,
    geocoded Sample.environ
      (Sample.weather_net (Sample.ok (VList [VDict Sample.london]))
         (Sample.ok Sample.drizzle))
      "london" api_key place
    /\ located place.
Proof.
  destruct (returned_weather_is_read_from_bodies Sample.environ
              (Sample.weather_net (Sample.ok (VList [VDict Sample.london]))
                 (Sample.ok Sample.drizzle))
              "london"
              {| city := "London"; temperature := (25, 2%positive);
                 weather_description := "light drizzle" |}
              eq_refl)
    as (api_key & place & payload & tv & dv & Hgeo & Hloc & _).
  exists api_key, place. split; assumption.
Defined.

Lemma origin_example :
  calls (Sample.weather_net (Sample.ok (VList [VDict Sample.unnamed_place]))
           (Sample.ok Sample.drizzle))
    (get_weather Sample.environ "Greenwich")
  = [geocode_request "Greenwich" "k3y";
     weather_request (VInt 51) (VInt 0) "k3y"].
Proof.
  apply (falsy_coordinates_are_used Sample.environ _ "Greenwich" "k3y"
           Sample.unnamed_place).
  - now apply sample_geocoded.
  - discriminate.
  - discriminate.
Defined.

Lemma second_place_example :
  run (Sample.weather_net
         (Sample.ok (VList [VDict Sample.london; VDict Sample.half_place]))
         (Sample.ok Sample.drizzle))
    (get_weather Sample.environ "London")
  = run (Sample.weather_net (Sample.ok (VList [VDict Sample.london]))
           (Sample.ok Sample.drizzle))
      (get_weather Sample.environ "London").
Proof.
  apply (later_places_are_ignored Sample.environ _ _ "London" "k3y"
           {| status_code := 200; headers := [];
              json := Val (VList [VDict Sample.london;
                                  VDict Sample.half_place]) |}
           {| status_code := 200; headers := [];
              json := Val (VList [VDict Sample.london]) |}
           (VDict Sample.london) [VDict Sample.half_place] []);
    try reflexivity. discriminate.
Defined.

Lemma only_404_example :
  visible_status
    (answer (Sample.user_net (Response Sample.gone)) (get_github_user "ghost"))
  = 404.
Proof.
  apply (not_found_only_for_upstream_404
           (Sample.user_net (Response Sample.gone)) "ghost").
  exists Sample.gone. split; reflexivity.
Defined.

Lemma upstream_429_example :
  visible_status
    (answer (Sample.user_net (Response (Cases.status_only 429)))
       (get_github_user "octocat"))
  = 429.
Proof.
  apply (too_many_requests_sources
           (Sample.user_net (Response (Cases.status_only 429))) "octocat").
  exists (Cases.status_only 429). split; [reflexivity | right; reflexivity].
Defined.
